(** * Shiny-Hunt creature sprite generator: a shallow embedding of
      [generate_creatures.py] and the properties of its renderer.

    The script draws every creature of a fixed catalogue twice (a base and a
    "unique" variant) with Pillow and saves the two pictures.  The embedding
    keeps the structure of the script:

    - [PyFloat]: the binary64 arithmetic Python performs in
      [int(c * 0.7 + 80)], on the bit-level float specification of the
      standard library;
    - [Pillow]: an image as its creation parameters plus the shapes painted
      on it, in painting order (rasterisation belongs to the library);
    - [Random]: the global generator behind [random.randint], as an oracle;
    - [PosixPath]: [os.path.join];
    - the renderer [draw_creature], the catalogue [CREATURES] and the driver
      [generate_all]. *)

From Stdlib Require Import ZArith Lia Ascii String Floats.SpecFloat.
From stdpp Require Import base option list gmap strings.

Local Open Scope Z_scope.
Local Set Warnings "-clear-no-such-hyp".


(* ===================================================================== *)
(** ** Python floats (IEEE 754 binary64, round to nearest even)          *)
(* ===================================================================== *)

Module PyFloat.

Definition prec : Z := 53.
Definition emax : Z := 1024.

(** [float(n)] for a Python [int]: the nearest double, ties to even.
    An [int] beyond the double range raises [OverflowError] ([None]). *)
Definition of_int (n : Z) : option spec_float :=
  match binary_normalize prec emax n 0 false with
  | S754_infinity _ => None
  | S754_nan => None
  | x => Some x
  end.

Definition mul : spec_float → spec_float → spec_float := SFmul prec emax.
Definition add : spec_float → spec_float → spec_float := SFadd prec emax.
Definition div : spec_float → spec_float → spec_float := SFdiv prec emax.

(** The literal [0.7]: the double nearest to 7/10, 0x3FE6666666666666. *)
Definition lit_0_7 : spec_float := S754_finite false 6305039478318694 (-53).

(** Magnitude of [m * 2^e] cut towards zero. *)
Definition trunc_mag (m : positive) (e : Z) : Z := Z.shiftl (Z.pos m) e.

(** [int(x)]: truncation towards zero; an infinity raises [OverflowError]
    and a NaN raises [ValueError] (both [None]). *)
Definition to_int (x : spec_float) : option Z :=
  match x with
  | S754_zero _ => Some 0
  | S754_finite s m e => Some (if s then - trunc_mag m e else trunc_mag m e)
  | S754_infinity _ => None
  | S754_nan => None
  end.

(** Magnitude of [m * 2^e] rounded to the nearest integer, ties to even. *)
Definition round_mag (m : positive) (e : Z) : Z :=
  match e with
  | Z.neg k =>
      let d := 2 ^ Z.pos k in
      let q := Z.pos m / d in
      let r := Z.pos m mod d in
      match 2 * r ?= d with
      | Lt => q
      | Gt => q + 1
      | Eq => if Z.even q then q else q + 1
      end
  | _ => Z.shiftl (Z.pos m) e
  end.

(** [round(x)] with one argument: nearest integer, ties to even. *)
Definition round (x : spec_float) : option Z :=
  match x with
  | S754_zero _ => Some 0
  | S754_finite s m e => Some (if s then - round_mag m e else round_mag m e)
  | S754_infinity _ => None
  | S754_nan => None
  end.

End PyFloat.

(** A colour is an RGB triple of Python ints. *)
Definition rgb : Type := Z * Z * Z.
Definition rgba : Type := Z * Z * Z * Z.

(** [tuple(f(c) for c in colour)] *)
Definition tuple_map (f : Z → Z) (colour : rgb) : rgb :=
  let '(r, g, b) := colour in (f r, f g, f b).

(** The same comprehension when [f] can raise: channels are evaluated left
    to right and the first exception aborts the comprehension. *)
Definition tuple_mapM (f : Z → option Z) (colour : rgb) : option rgb :=
  let '(r, g, b) := colour in
  r' ← f r; g' ← f g; b' ← f b; Some (r', g', b').

(** The float expression [c * 0.7 + 80] of line 59: [c] and [80] are
    converted to doubles, the product and the sum are each rounded. *)
Definition shifted (c : Z) : option spec_float :=
  x ← PyFloat.of_int c;
  k ← PyFloat.of_int 80;
  Some (PyFloat.add (PyFloat.mul x PyFloat.lit_0_7) k).

(** One channel of the unique variant: [min(255, int(c * 0.7 + 80))]. *)
Definition unique_channel (c : Z) : option Z :=
  y ← shifted c;
  n ← PyFloat.to_int y;
  Some (Z.min 255 n).

(** What the specification says of that channel, word for word:
    [min(255, round(c*0.7+80))], on the same double. *)
Definition spec_unique_channel (c : Z) : option Z :=
  y ← shifted c;
  n ← PyFloat.round y;
  Some (Z.min 255 n).

(** Channel values of an 8-bit image. *)
Definition channel_range : list Z := Z.of_nat <$> seq 0 256.

(* ===================================================================== *)
(** ** Pillow images                                                      *)
(* ===================================================================== *)

Module Pillow.

Definition point : Type := Z * Z.
Definition box : Type := Z * Z * Z * Z.

(** One call on an [ImageDraw.Draw] object. *)
Inductive shape : Type :=
| Ellipse (xy : box) (fill : rgb)
| Rectangle (xy : box) (fill : rgb)
| Polygon (xy : list point) (fill : rgb)
| Line (xy : list point) (fill : rgb) (width : Z).

(** An image: the arguments of [Image.new] and the shapes painted since,
    oldest first (later shapes cover earlier ones). *)
Record image : Type := Image {
  mode : string;
  size : Z * Z;
  background : rgba;
  drawn : list shape
}.

(** [Image.new(mode, size, color)] *)
Definition new (mode : string) (size : Z * Z) (color : rgba) : image :=
  Image mode size color [].

(** The effect of one drawing call on the image it is bound to. *)
Definition paint (s : shape) (img : image) : image :=
  Image (mode img) (size img) (background img) (drawn img ++ [s]).

Definition fill_of (s : shape) : rgb :=
  match s with
  | Ellipse _ c | Rectangle _ c | Polygon _ c | Line _ c _ => c
  end.

End Pillow.
Import Pillow.

(* ===================================================================== *)
(** ** The [random] module                                                *)
(* ===================================================================== *)

Module Random.

(** The hidden generator state, as the tape of raw numbers it will
    produce; the script never seeds it, so any tape is possible. *)
Definition rng : Type := nat → Z.

(** [random.randint(a, b)]: an integer of [a..b], both ends included. *)
Definition randint (a b : Z) (g : rng) : Z * rng :=
  (a + g 0%nat `mod` (b - a + 1), λ n, g (S n)).

End Random.

(* ===================================================================== *)
(** ** [os.path.join] on POSIX                                            *)
(* ===================================================================== *)

Module PosixPath.

Fixpoint last_char (s : string) : option ascii :=
  match s with
  | EmptyString => None
  | String a EmptyString => Some a
  | String _ s' => last_char s'
  end.

Definition startswith_sep (s : string) : bool :=
  match s with
  | String a _ => bool_decide (a = "/"%char)
  | EmptyString => false
  end.

Definition endswith_sep (s : string) : bool :=
  bool_decide (last_char s = Some "/"%char).

(** One step of [posixpath.join]: an absolute component restarts the
    path; otherwise it is appended, after a separator unless the path is
    empty or already ends with one. *)
Definition join (path b : string) : string :=
  if startswith_sep b then b
  else if bool_decide (path = EmptyString) || endswith_sep path then path +:+ b
  else path +:+ "/" +:+ b.

End PosixPath.

(* ===================================================================== *)
(** ** Rendering computations                                             *)
(* ===================================================================== *)

(** The renderer reads and updates two pieces of state: the image bound to
    [draw] and the generator of the [random] module; it can also raise. *)
Record state : Type := State { img : image; gen : Random.rng }.

Definition Render (A : Type) : Type := state → option (A * state).

Global Instance render_ret : MRet Render := λ A x st, Some (x, st).
Global Instance render_bind : MBind Render := λ A B f m st,
  match m st with
  | Some (x, st') => f x st'
  | None => None
  end.

(** Re-raise the exception of a pure sub-computation. *)
Definition lift {A} (o : option A) : Render A := λ st,
  match o with
  | Some x => Some (x, st)
  | None => None
  end.

Definition skip : Render unit := mret tt.

Definition draw_shape (s : shape) : Render unit := λ st,
  Some (tt, State (paint s (img st)) (gen st)).

(** [draw.ellipse], [draw.rectangle], [draw.polygon], [draw.line] *)
Definition ellipse (xy : box) (fill : rgb) : Render unit :=
  draw_shape (Ellipse xy fill).
Definition rectangle (xy : box) (fill : rgb) : Render unit :=
  draw_shape (Rectangle xy fill).
Definition polygon (xy : list point) (fill : rgb) : Render unit :=
  draw_shape (Polygon xy fill).
Definition line (xy : list point) (fill : rgb) (width : Z) : Render unit :=
  draw_shape (Line xy fill width).

Definition randint (a b : Z) : Render Z := λ st,
  let '(v, g') := Random.randint a b (gen st) in
  Some (v, State (img st) g').

(** [range(n)] *)
Definition range (n : Z) : list Z := Z.of_nat <$> seq 0 (Z.to_nat n).

(** [for i in xs: body(i)] *)
Fixpoint for_each {A} (xs : list A) (body : A → Render unit) : Render unit :=
  match xs with
  | [] => skip
  | x :: xs' => body x ;; for_each xs' body
  end.

(* ===================================================================== *)
(** ** Parameter records                                                  *)
(* ===================================================================== *)

(** The keys a parameter dictionary may hold; [None] is a missing key.
    (For ['horns_color'] a missing key and an explicit [None] read the
    same.) *)
Module Key.
Record params : Type := Params {
  color : option rgb;
  tail : option string;
  horns : option bool;
  horns_color : option rgb;
  spines : option Z;
  crest : option bool;
  spots : option bool;
  fins : option bool;
  allow_crest_unique : option bool
}.
End Key.
Abbreviation params := Key.params.

(** The local variables of [draw_creature] that hold the features. *)
Record locals : Type := Locals {
  colour : rgb;
  tail_shape : string;
  horns : bool;
  horns_colour : option rgb;
  spines : Z;
  crest : bool;
  spots : bool;
  fins : bool
}.

(** Lines 47-54: [params.get(key, default)] for each feature. *)
Definition extract (p : params) : locals :=
  {| colour := default (120, 200, 120) (Key.color p);
     tail_shape := default "normal"%string (Key.tail p);
     horns := default false (Key.horns p);
     horns_colour := Key.horns_color p;
     spines := default 0 (Key.spines p);
     crest := default false (Key.crest p);
     spots := default false (Key.spots p);
     fins := default false (Key.fins p) |}.

(** Lines 59-64: the reassignments under [if unique:]. *)
Definition make_unique (p : params) (l : locals) : option locals :=
  colour' ← tuple_mapM unique_channel (colour l);
  Some {| colour := colour';
          tail_shape := tail_shape l;
          horns := negb (horns l);
          horns_colour := horns_colour l;
          spines := (spines l + 2) `mod` 5;
          crest := if default true (Key.allow_crest_unique p)
                   then negb (crest l) else crest l;
          spots := negb (spots l);
          fins := negb (fins l) |}.

(** The features that are drawn (lines 47-64). *)
Definition effective (p : params) (unique : bool) : option locals :=
  if unique then make_unique p (extract p) else Some (extract p).

(** *** Sample inputs *)

(** The petal offsets of exact cosines and sines, cut towards zero (the C
    library may land one off where the exact product is an integer). *)
Definition exact_petal_offset (i : Z) : Z * Z :=
  if i =? 0 then (12, 0) else if i =? 1 then (6, 10)
  else if i =? 2 then (-6, 10) else if i =? 3 then (-12, 0)
  else if i =? 4 then (-6, -10) else (6, -10).

(** A generator whose tape is all zeros. *)
Definition zero_rng : Random.rng := λ _, 0.

(* ===================================================================== *)
(** ** The renderer                                                       *)
(* ===================================================================== *)

Section Creatures.

(** [petal_offset i] stands for the pair
    [(int(12 * math.cos(a)), int(12 * math.sin(a)))] with
    [a = math.radians(i * 60)] of lines 111-114: the value of the C
    library's cosine and sine is taken as given. *)
Variable petal_offset : Z → Z * Z.

(** Lines 66-77: body, head and the two legs. *)
Definition draw_body (colour : rgb) : Render unit :=
  let body_rect := (20, 40, 80, 90) in
  ellipse body_rect colour ;;
  let head_rect := (40, 20, 80, 60) in
  ellipse head_rect colour ;;
  rectangle (30, 80, 40, 95) colour ;;
  rectangle (55, 80, 65, 95) colour.

(** Lines 79-94: the tail. *)
Definition draw_tail (tail_shape : string) (colour : rgb) : Render unit :=
  if bool_decide (tail_shape = "leaf"%string) then
    let leaf_points := [(20, 70); (10, 50); (20, 55); (15, 65)] in
    polygon leaf_points colour ;;
    line [(15, 55); (15, 65)] (0, 100, 0) 1
  else if bool_decide (tail_shape = "long"%string) then
    let tail_points := [(20, 75); (5, 65); (20, 55)] in
    polygon tail_points colour
  else if bool_decide (tail_shape = "fin"%string) then
    let tail_points := [(20, 70); (5, 60); (20, 50)] in
    polygon tail_points colour ;;
    line [(12, 58); (12, 65)] (0, 150, 200) 1
  else
    let tail_points := [(20, 70); (10, 65); (20, 60)] in
    polygon tail_points colour.

(** Lines 96-100: the horns; [horns_colour or ...] falls back on the
    lightened body colour when no horn colour was given. *)
Definition draw_horns (horns : bool) (horns_colour : option rgb)
    (colour : rgb) : Render unit :=
  if horns then
    let hc := default (tuple_map (λ c, Z.min 255 (c + 40)) colour) horns_colour in
    polygon [(50, 12); (54, 25); (46, 25)] hc ;;
    polygon [(60, 12); (64, 25); (56, 25)] hc
  else skip.

(** Lines 102-106: the spines along the back. *)
Definition draw_spines (spines : Z) (colour : rgb) : Render unit :=
  for_each (range spines) (λ i,
    let x := 30 + i * 10 in
    polygon [(x, 38 - i * 2); (x + 5, 28 - i * 2); (x + 10, 38 - i * 2)]
            (tuple_map (λ c, Z.max 0 (c - 30)) colour)).

(** Lines 108-116: the collar of petals. *)
Definition draw_crest (crest unique : bool) : Render unit :=
  if crest then
    for_each (range 6) (λ i,
      let '(cx, cy) := (60, 40) in
      let '(dx, dy) := petal_offset i in
      let petal_col := if negb unique then (255, 200, 0) else (255, 0, 200) in
      ellipse (cx + dx - 4, cy + dy - 4, cx + dx + 4, cy + dy + 4) petal_col)
  else skip.

(** Lines 118-125: the spots, at random places. *)
Definition draw_spots (spots : bool) (colour : rgb) : Render unit :=
  if spots then
    for_each (range 6) (λ _,
      sx ← randint 30 70;
      sy ← randint 50 85;
      let spot_col := tuple_map (λ c, Z.max 0 (c - 40)) colour in
      ellipse (sx - 2, sy - 2, sx + 2, sy + 2) spot_col)
  else skip.

(** Lines 127-133: the three fins. *)
Definition draw_fins (fins : bool) (colour : rgb) : Render unit :=
  if fins then
    let fin_col := tuple_map (λ c, Z.min 255 (c + 60)) colour in
    for_each (range 3) (λ i,
      let fx := 35 + i * 15 in
      polygon [(fx, 35 - i * 3); (fx + 7, 25 - i * 3); (fx + 14, 35 - i * 3)]
              fin_col)
  else skip.

(** Lines 135-142: the eyes. *)
Definition draw_eyes : Render unit :=
  let '(eye_x, eye_y) := (63, 33) in
  ellipse (eye_x - 10, eye_y - 5, eye_x - 4, eye_y + 1) (255, 255, 255) ;;
  ellipse (eye_x - 8, eye_y - 3, eye_x - 6, eye_y - 1) (0, 0, 0) ;;
  ellipse (eye_x - 24, eye_y - 5, eye_x - 18, eye_y + 1) (255, 255, 255) ;;
  ellipse (eye_x - 22, eye_y - 3, eye_x - 20, eye_y - 1) (0, 0, 0).

(** The statements of [draw_creature] after the image is created. *)
Definition render (p : params) (unique : bool) : Render unit :=
  l ← lift (effective p unique);
  draw_body (colour l) ;;
  draw_tail (tail_shape l) (colour l) ;;
  draw_horns (horns l) (horns_colour l) (colour l) ;;
  draw_spines (spines l) (colour l) ;;
  draw_crest (crest l) unique ;;
  draw_spots (spots l) (colour l) ;;
  draw_fins (fins l) (colour l) ;;
  draw_eyes.

(** [draw_creature(params, unique)]: the image returned and the generator
    afterwards, or [None] when an exception escapes. *)
Definition draw_creature (p : params) (unique : bool) (g : Random.rng)
    : option (image * Random.rng) :=
  let size := 100 in
  let img0 := Pillow.new "RGBA" (size, size) (0, 0, 0, 0) in
  '(_, st) ← render p unique (State img0 g);
  Some (img st, gen st).

(* ===================================================================== *)
(** ** The catalogue and the driver                                       *)
(* ===================================================================== *)

(** Lines 150-211, entry for entry; a key the dictionary literal does not
    mention is [None]. *)
Definition CREATURES : list (string * params) := [
  ("verdant_leaflon",
   {| Key.color := Some (76, 174, 79); Key.tail := Some "leaf"; Key.horns := Some false;
      Key.horns_color := None; Key.spines := Some 1; Key.crest := Some false;
      Key.spots := Some false; Key.fins := Some false; Key.allow_crest_unique := None |});
  ("verdant_barkhorn",
   {| Key.color := Some (143, 92, 49); Key.tail := Some "normal"; Key.horns := Some true;
      Key.horns_color := Some (189, 135, 70); Key.spines := Some 0; Key.crest := Some false;
      Key.spots := Some false; Key.fins := Some false; Key.allow_crest_unique := None |});
  ("verdant_dewhopper",
   {| Key.color := Some (119, 178, 187); Key.tail := Some "long"; Key.horns := Some false;
      Key.horns_color := None; Key.spines := Some 0; Key.crest := Some false;
      Key.spots := Some true; Key.fins := Some true; Key.allow_crest_unique := None |});
  ("verdant_suncollar",
   {| Key.color := Some (208, 131, 45); Key.tail := Some "normal"; Key.horns := Some false;
      Key.horns_color := None; Key.spines := Some 0; Key.crest := Some true;
      Key.spots := Some false; Key.fins := Some false; Key.allow_crest_unique := Some false |});
  ("verdant_sproutling",
   {| Key.color := Some (102, 185, 90); Key.tail := Some "leaf"; Key.horns := Some false;
      Key.horns_color := None; Key.spines := Some 2; Key.crest := Some false;
      Key.spots := Some false; Key.fins := Some false; Key.allow_crest_unique := None |});
  ("verdant_gloomdrake",
   {| Key.color := Some (91, 64, 115); Key.tail := Some "long"; Key.horns := Some true;
      Key.horns_color := Some (111, 84, 135); Key.spines := Some 3; Key.crest := Some false;
      Key.spots := Some false; Key.fins := Some false; Key.allow_crest_unique := None |});
  ("verdant_shadowpouncer",
   {| Key.color := Some (60, 60, 70); Key.tail := Some "long"; Key.horns := Some false;
      Key.horns_color := None; Key.spines := Some 2; Key.crest := Some false;
      Key.spots := Some false; Key.fins := Some false; Key.allow_crest_unique := None |});
  ("verdant_moonfen",
   {| Key.color := Some (75, 123, 199); Key.tail := Some "fin"; Key.horns := Some false;
      Key.horns_color := None; Key.spines := Some 0; Key.crest := Some false;
      Key.spots := Some true; Key.fins := Some true; Key.allow_crest_unique := None |});
  ("verdant_shadehopper",
   {| Key.color := Some (63, 97, 56); Key.tail := Some "long"; Key.horns := Some false;
      Key.horns_color := None; Key.spines := Some 0; Key.crest := Some false;
      Key.spots := Some true; Key.fins := Some false; Key.allow_crest_unique := None |});
  ("verdant_starbit",
   {| Key.color := Some (223, 210, 60); Key.tail := Some "fin"; Key.horns := Some false;
      Key.horns_color := None; Key.spines := Some 1; Key.crest := Some false;
      Key.spots := Some false; Key.fins := Some true; Key.allow_crest_unique := None |});
  ("desert_sunscale",
   {| Key.color := Some (230, 170, 69); Key.tail := Some "normal"; Key.horns := Some true;
      Key.horns_color := Some (255, 213, 96); Key.spines := Some 3; Key.crest := Some false;
      Key.spots := Some false; Key.fins := Some false; Key.allow_crest_unique := None |});
  ("desert_sandrunner",
   {| Key.color := Some (199, 148, 80); Key.tail := Some "long"; Key.horns := Some false;
      Key.horns_color := None; Key.spines := Some 1; Key.crest := Some false;
      Key.spots := Some false; Key.fins := Some false; Key.allow_crest_unique := None |});
  ("desert_cactusaur",
   {| Key.color := Some (187, 167, 57); Key.tail := Some "leaf"; Key.horns := Some true;
      Key.horns_color := Some (204, 190, 92); Key.spines := Some 2; Key.crest := Some false;
      Key.spots := Some false; Key.fins := Some false; Key.allow_crest_unique := None |});
  ("desert_mirageback",
   {| Key.color := Some (207, 152, 97); Key.tail := Some "long"; Key.horns := Some false;
      Key.horns_color := None; Key.spines := Some 0; Key.crest := Some true;
      Key.spots := Some false; Key.fins := Some false; Key.allow_crest_unique := None |});
  ("desert_dustwing",
   {| Key.color := Some (215, 180, 100); Key.tail := Some "fin"; Key.horns := Some false;
      Key.horns_color := None; Key.spines := Some 0; Key.crest := Some false;
      Key.spots := Some false; Key.fins := Some true; Key.allow_crest_unique := None |});
  ("desert_dunehowl",
   {| Key.color := Some (120, 85, 60); Key.tail := Some "long"; Key.horns := Some true;
      Key.horns_color := Some (145, 105, 75); Key.spines := Some 1; Key.crest := Some false;
      Key.spots := Some false; Key.fins := Some false; Key.allow_crest_unique := None |});
  ("desert_nightcrawler",
   {| Key.color := Some (85, 74, 65); Key.tail := Some "long"; Key.horns := Some false;
      Key.horns_color := None; Key.spines := Some 3; Key.crest := Some false;
      Key.spots := Some false; Key.fins := Some false; Key.allow_crest_unique := None |});
  ("desert_mirageglider",
   {| Key.color := Some (139, 116, 102); Key.tail := Some "fin"; Key.horns := Some true;
      Key.horns_color := Some (169, 146, 132); Key.spines := Some 0; Key.crest := Some false;
      Key.spots := Some false; Key.fins := Some true; Key.allow_crest_unique := None |});
  ("desert_sandshiver",
   {| Key.color := Some (155, 121, 93); Key.tail := Some "long"; Key.horns := Some false;
      Key.horns_color := None; Key.spines := Some 4; Key.crest := Some false;
      Key.spots := Some false; Key.fins := Some false; Key.allow_crest_unique := None |});
  ("desert_aridclaw",
   {| Key.color := Some (133, 109, 90); Key.tail := Some "normal"; Key.horns := Some true;
      Key.horns_color := Some (163, 139, 120); Key.spines := Some 1; Key.crest := Some false;
      Key.spots := Some false; Key.fins := Some false; Key.allow_crest_unique := None |});
  ("ocean_seapup",
   {| Key.color := Some (79, 169, 222); Key.tail := Some "fin"; Key.horns := Some false;
      Key.horns_color := None; Key.spines := Some 0; Key.crest := Some false;
      Key.spots := Some false; Key.fins := Some true; Key.allow_crest_unique := None |});
  ("ocean_coralhorn",
   {| Key.color := Some (85, 131, 191); Key.tail := Some "normal"; Key.horns := Some true;
      Key.horns_color := Some (170, 198, 240); Key.spines := Some 2; Key.crest := Some false;
      Key.spots := Some false; Key.fins := Some false; Key.allow_crest_unique := None |});
  ("ocean_tideback",
   {| Key.color := Some (92, 183, 201); Key.tail := Some "fin"; Key.horns := Some false;
      Key.horns_color := None; Key.spines := Some 0; Key.crest := Some false;
      Key.spots := Some false; Key.fins := Some true; Key.allow_crest_unique := None |});
  ("ocean_splashfin",
   {| Key.color := Some (104, 167, 216); Key.tail := Some "fin"; Key.horns := Some false;
      Key.horns_color := None; Key.spines := Some 1; Key.crest := Some false;
      Key.spots := Some false; Key.fins := Some true; Key.allow_crest_unique := None |});
  ("ocean_wavefoot",
   {| Key.color := Some (66, 138, 190); Key.tail := Some "fin"; Key.horns := Some false;
      Key.horns_color := None; Key.spines := Some 0; Key.crest := Some false;
      Key.spots := Some true; Key.fins := Some true; Key.allow_crest_unique := None |});
  ("ocean_deepglow",
   {| Key.color := Some (40, 85, 138); Key.tail := Some "fin"; Key.horns := Some false;
      Key.horns_color := None; Key.spines := Some 0; Key.crest := Some false;
      Key.spots := Some true; Key.fins := Some true; Key.allow_crest_unique := None |});
  ("ocean_moonray",
   {| Key.color := Some (58, 104, 161); Key.tail := Some "fin"; Key.horns := Some false;
      Key.horns_color := None; Key.spines := Some 1; Key.crest := Some false;
      Key.spots := Some true; Key.fins := Some true; Key.allow_crest_unique := None |});
  ("ocean_abyssclaw",
   {| Key.color := Some (50, 84, 123); Key.tail := Some "normal"; Key.horns := Some true;
      Key.horns_color := Some (80, 114, 153); Key.spines := Some 2; Key.crest := Some false;
      Key.spots := Some false; Key.fins := Some false; Key.allow_crest_unique := None |});
  ("ocean_mistwing",
   {| Key.color := Some (76, 121, 182); Key.tail := Some "fin"; Key.horns := Some false;
      Key.horns_color := None; Key.spines := Some 0; Key.crest := Some false;
      Key.spots := Some false; Key.fins := Some true; Key.allow_crest_unique := None |});
  ("ocean_whirlpooler",
   {| Key.color := Some (60, 94, 140); Key.tail := Some "fin"; Key.horns := Some false;
      Key.horns_color := None; Key.spines := Some 3; Key.crest := Some false;
      Key.spots := Some false; Key.fins := Some true; Key.allow_crest_unique := None |});
  ("mountain_iceback",
   {| Key.color := Some (146, 202, 221); Key.tail := Some "normal"; Key.horns := Some true;
      Key.horns_color := Some (176, 232, 251); Key.spines := Some 3; Key.crest := Some false;
      Key.spots := Some false; Key.fins := Some false; Key.allow_crest_unique := None |});
  ("mountain_snowtail",
   {| Key.color := Some (192, 223, 233); Key.tail := Some "long"; Key.horns := Some false;
      Key.horns_color := None; Key.spines := Some 1; Key.crest := Some false;
      Key.spots := Some false; Key.fins := Some false; Key.allow_crest_unique := None |});
  ("mountain_frosthorn",
   {| Key.color := Some (163, 198, 222); Key.tail := Some "normal"; Key.horns := Some true;
      Key.horns_color := Some (213, 243, 255); Key.spines := Some 1; Key.crest := Some false;
      Key.spots := Some false; Key.fins := Some false; Key.allow_crest_unique := None |});
  ("mountain_glacierpaw",
   {| Key.color := Some (179, 210, 220); Key.tail := Some "normal"; Key.horns := Some false;
      Key.horns_color := None; Key.spines := Some 0; Key.crest := Some true;
      Key.spots := Some false; Key.fins := Some false; Key.allow_crest_unique := None |});
  ("mountain_chilldrake",
   {| Key.color := Some (134, 187, 210); Key.tail := Some "long"; Key.horns := Some true;
      Key.horns_color := Some (164, 217, 240); Key.spines := Some 2; Key.crest := Some false;
      Key.spots := Some false; Key.fins := Some false; Key.allow_crest_unique := None |});
  ("mountain_iciclex",
   {| Key.color := Some (103, 143, 170); Key.tail := Some "long"; Key.horns := Some false;
      Key.horns_color := None; Key.spines := Some 3; Key.crest := Some false;
      Key.spots := Some false; Key.fins := Some false; Key.allow_crest_unique := None |});
  ("mountain_nightfrost",
   {| Key.color := Some (90, 122, 149); Key.tail := Some "long"; Key.horns := Some true;
      Key.horns_color := Some (120, 152, 179); Key.spines := Some 2; Key.crest := Some false;
      Key.spots := Some false; Key.fins := Some false; Key.allow_crest_unique := None |});
  ("mountain_winterstalk",
   {| Key.color := Some (113, 153, 180); Key.tail := Some "normal"; Key.horns := Some false;
      Key.horns_color := None; Key.spines := Some 4; Key.crest := Some false;
      Key.spots := Some false; Key.fins := Some false; Key.allow_crest_unique := None |});
  ("mountain_snowmantle",
   {| Key.color := Some (167, 214, 236); Key.tail := Some "normal"; Key.horns := Some false;
      Key.horns_color := None; Key.spines := Some 1; Key.crest := Some true;
      Key.spots := Some false; Key.fins := Some false; Key.allow_crest_unique := None |});
  ("mountain_iceblink",
   {| Key.color := Some (120, 164, 198); Key.tail := Some "fin"; Key.horns := Some true;
      Key.horns_color := Some (150, 194, 228); Key.spines := Some 2; Key.crest := Some false;
      Key.spots := Some false; Key.fins := Some true; Key.allow_crest_unique := None |});
  ("swamp_mudfin",
   {| Key.color := Some (102, 125, 77); Key.tail := Some "fin"; Key.horns := Some false;
      Key.horns_color := None; Key.spines := Some 0; Key.crest := Some false;
      Key.spots := Some true; Key.fins := Some true; Key.allow_crest_unique := None |});
  ("swamp_bogmaw",
   {| Key.color := Some (89, 113, 65); Key.tail := Some "long"; Key.horns := Some true;
      Key.horns_color := Some (119, 143, 95); Key.spines := Some 2; Key.crest := Some false;
      Key.spots := Some false; Key.fins := Some false; Key.allow_crest_unique := None |});
  ("swamp_marshclaw",
   {| Key.color := Some (79, 103, 61); Key.tail := Some "long"; Key.horns := Some false;
      Key.horns_color := None; Key.spines := Some 3; Key.crest := Some false;
      Key.spots := Some false; Key.fins := Some false; Key.allow_crest_unique := None |});
  ("swamp_fenrunner",
   {| Key.color := Some (96, 129, 82); Key.tail := Some "long"; Key.horns := Some false;
      Key.horns_color := None; Key.spines := Some 1; Key.crest := Some false;
      Key.spots := Some false; Key.fins := Some false; Key.allow_crest_unique := None |});
  ("swamp_vinecrest",
   {| Key.color := Some (83, 116, 70); Key.tail := Some "leaf"; Key.horns := Some false;
      Key.horns_color := None; Key.spines := Some 0; Key.crest := Some true;
      Key.spots := Some false; Key.fins := Some false; Key.allow_crest_unique := None |});
  ("swamp_mireglow",
   {| Key.color := Some (70, 96, 58); Key.tail := Some "fin"; Key.horns := Some false;
      Key.horns_color := None; Key.spines := Some 0; Key.crest := Some false;
      Key.spots := Some true; Key.fins := Some true; Key.allow_crest_unique := None |});
  ("swamp_sludgeback",
   {| Key.color := Some (60, 80, 50); Key.tail := Some "long"; Key.horns := Some true;
      Key.horns_color := Some (90, 110, 70); Key.spines := Some 2; Key.crest := Some false;
      Key.spots := Some false; Key.fins := Some false; Key.allow_crest_unique := None |});
  ("swamp_fogwhisp",
   {| Key.color := Some (72, 98, 64); Key.tail := Some "fin"; Key.horns := Some false;
      Key.horns_color := None; Key.spines := Some 1; Key.crest := Some false;
      Key.spots := Some true; Key.fins := Some true; Key.allow_crest_unique := None |});
  ("swamp_croakshade",
   {| Key.color := Some (68, 92, 58); Key.tail := Some "long"; Key.horns := Some false;
      Key.horns_color := None; Key.spines := Some 2; Key.crest := Some false;
      Key.spots := Some false; Key.fins := Some false; Key.allow_crest_unique := None |});
  ("swamp_nightvine",
   {| Key.color := Some (65, 90, 55); Key.tail := Some "leaf"; Key.horns := Some true;
      Key.horns_color := Some (95, 120, 85); Key.spines := Some 1; Key.crest := Some false;
      Key.spots := Some false; Key.fins := Some false; Key.allow_crest_unique := None |})
]%string.

(** [BASE_DIR] is the directory that holds the script (line 26). *)
Variable BASE_DIR : string.

Definition ASSETS_DIR : string :=
  PosixPath.join (PosixPath.join BASE_DIR "assets") "creatures".
Definition BASE_OUTPUT : string := PosixPath.join ASSETS_DIR "base".
Definition UNIQUE_OUTPUT : string := PosixPath.join ASSETS_DIR "unique".

(** [ASSETS_DIR] followed by the separator [os.path.join] puts after it. *)
Definition assets_prefix : string :=
  if bool_decide (ASSETS_DIR = EmptyString) || PosixPath.endswith_sep ASSETS_DIR
  then ASSETS_DIR else ASSETS_DIR +:+ "/".

(** The two files written for the creature called [name]. *)
Definition base_path_of (name : string) : string :=
  PosixPath.join BASE_OUTPUT (name +:+ "_base.png").
Definition unique_path_of (name : string) : string :=
  PosixPath.join UNIQUE_OUTPUT (name +:+ "_unique.png").
Definition entry_paths (e : string * params) : list string :=
  [base_path_of e.1; unique_path_of e.1].

(** The same two names below [assets_prefix]. *)
Definition entry_leaves (e : string * params) : list string :=
  ["base/" +:+ e.1 +:+ "_base.png"; "unique/" +:+ e.1 +:+ "_unique.png"].

(** A name that [os.path.join] appends rather than restarts from. *)
Definition plain_name (e : string * params) : Prop :=
  PosixPath.startswith_sep (e.1 +:+ "_base.png") = false
  ∧ PosixPath.startswith_sep (e.1 +:+ "_unique.png") = false.

(** What the driver acts on: the files (a path holds the picture saved
    there), the lines printed so far and the generator of [random].  Both
    output directories exist: lines 30-31 create them when the module is
    loaded. *)
Record world : Type := World {
  files : gmap string image;
  stdout : list string;
  entropy : Random.rng
}.

(** [img.save(path)]: creates the file or replaces its content. *)
Definition save (im : image) (path : string) (fs : gmap string image)
    : gmap string image :=
  <[path := im]> fs.

(** How a run ends: normally, or with an exception; either way the world
    is the one reached at that moment. *)
Inductive outcome : Type :=
| Finished (w : world)
| Raised (w : world).

(** One turn of the loop of [generate_all] (lines 217-223). *)
Definition generate_entry (entry : string * params) (w : world) : outcome :=
  let '(name, p) := entry in
  match draw_creature p false (entropy w) with
  | None => Raised w
  | Some (base_img, g1) =>
      match draw_creature p true g1 with
      | None => Raised (World (files w) (stdout w) g1)
      | Some (unique_img, g2) =>
          let base_path := base_path_of name in
          let unique_path := unique_path_of name in
          let fs1 := save base_img base_path (files w) in
          let fs2 := save unique_img unique_path fs1 in
          let out :=
            stdout w ++ ["Generated " +:+ base_path +:+ " and unique variant"] in
          Finished (World fs2 out g2)
      end
  end.

(** [for name, params in entries: ...] *)
Fixpoint generate_from (entries : list (string * params)) (w : world)
    : outcome :=
  match entries with
  | [] => Finished w
  | e :: es =>
      match generate_entry e w with
      | Finished w' => generate_from es w'
      | Raised w' => Raised w'
      end
  end.

Definition generate_all (w : world) : outcome := generate_from CREATURES w.

(* ===================================================================== *)
(** ** The shapes each block paints                                       *)
(* ===================================================================== *)

(** The lists below say in closed form what the blocks of [draw_creature]
    add to the image; [draw_creature_run] proves that they do. *)

Definition extend (ss : list shape) (im : image) : image :=
  Image (mode im) (size im) (background im) (drawn im ++ ss).

(** A computation that only paints [ss] and leaves the generator at [g']. *)
Definition paints (m : Render unit) (st : state) (ss : list shape)
    (g' : Random.rng) : Prop :=
  m st = Some (tt, State (extend ss (img st)) g').

Definition body_shapes (c : rgb) : list shape :=
  [Ellipse (20, 40, 80, 90) c; Ellipse (40, 20, 80, 60) c;
   Rectangle (30, 80, 40, 95) c; Rectangle (55, 80, 65, 95) c].

Definition tail_shapes (t : string) (c : rgb) : list shape :=
  if bool_decide (t = "leaf"%string) then
    [Polygon [(20, 70); (10, 50); (20, 55); (15, 65)] c;
     Line [(15, 55); (15, 65)] (0, 100, 0) 1]
  else if bool_decide (t = "long"%string) then
    [Polygon [(20, 75); (5, 65); (20, 55)] c]
  else if bool_decide (t = "fin"%string) then
    [Polygon [(20, 70); (5, 60); (20, 50)] c;
     Line [(12, 58); (12, 65)] (0, 150, 200) 1]
  else
    [Polygon [(20, 70); (10, 65); (20, 60)] c].

Definition horn_shapes (h : bool) (hc : option rgb) (c : rgb) : list shape :=
  if h then
    let col := default (tuple_map (λ c, Z.min 255 (c + 40)) c) hc in
    [Polygon [(50, 12); (54, 25); (46, 25)] col;
     Polygon [(60, 12); (64, 25); (56, 25)] col]
  else [].

Definition spine (c : rgb) (i : Z) : shape :=
  Polygon [(30 + i * 10, 38 - i * 2); (30 + i * 10 + 5, 28 - i * 2);
           (30 + i * 10 + 10, 38 - i * 2)]
          (tuple_map (λ c, Z.max 0 (c - 30)) c).

Definition spine_shapes (n : Z) (c : rgb) : list shape := spine c <$> range n.

Definition petal (unique : bool) (i : Z) : shape :=
  Ellipse (60 + (petal_offset i).1 - 4, 40 + (petal_offset i).2 - 4,
           60 + (petal_offset i).1 + 4, 40 + (petal_offset i).2 + 4)
          (if unique then (255, 0, 200) else (255, 200, 0)).

Definition crest_shapes (cr unique : bool) : list shape :=
  if cr then petal unique <$> range 6 else [].

(** The six places [random] picks: twelve numbers leave the tape. *)
Definition spot_positions (g : Random.rng) : list (Z * Z) :=
  (λ i : nat, (30 + g (2 * i)%nat `mod` 41, 50 + g (2 * i + 1)%nat `mod` 36))
    <$> seq 0 6.

Definition spot (c : rgb) (xy : Z * Z) : shape :=
  Ellipse (xy.1 - 2, xy.2 - 2, xy.1 + 2, xy.2 + 2)
          (tuple_map (λ c, Z.max 0 (c - 40)) c).

Definition spot_shapes (sp : bool) (c : rgb) (g : Random.rng) : list shape :=
  if sp then spot c <$> spot_positions g else [].

Definition after_spots (sp : bool) (g : Random.rng) : Random.rng :=
  if sp then λ n, g (12 + n)%nat else g.

Definition fin (c : rgb) (i : Z) : shape :=
  Polygon [(35 + i * 15, 35 - i * 3); (35 + i * 15 + 7, 25 - i * 3);
           (35 + i * 15 + 14, 35 - i * 3)]
          (tuple_map (λ c, Z.min 255 (c + 60)) c).

Definition fin_shapes (f : bool) (c : rgb) : list shape :=
  if f then fin c <$> range 3 else [].

Definition eye_shapes : list shape :=
  [Ellipse (53, 28, 59, 34) (255, 255, 255); Ellipse (55, 30, 57, 32) (0, 0, 0);
   Ellipse (39, 28, 45, 34) (255, 255, 255); Ellipse (41, 30, 43, 32) (0, 0, 0)].

(** Everything painted for the features [l], back to front. *)
Definition picture (l : locals) (unique : bool) (g : Random.rng) : list shape :=
  body_shapes (colour l) ++ tail_shapes (tail_shape l) (colour l)
  ++ horn_shapes (horns l) (horns_colour l) (colour l)
  ++ spine_shapes (spines l) (colour l)
  ++ crest_shapes (crest l) unique
  ++ spot_shapes (spots l) (colour l) g
  ++ fin_shapes (fins l) (colour l)
  ++ eye_shapes.

(** A polygon or a line that lies wholly left of the body ([x <= 20]):
    where the tail is. *)
Definition in_tail_region (s : shape) : bool :=
  match s with
  | Polygon xy _ | Line xy _ _ => forallb (λ pt : point, pt.1 <=? 20) xy
  | _ => false
  end.

Definition is_line (s : shape) : bool :=
  match s with Line _ _ _ => true | _ => false end.

(* ===================================================================== *)
(** ** Vocabulary of the further properties                               *)
(* ===================================================================== *)

(** A value a channel of an 8-bit image can hold, and a colour made of
    such values. *)
Definition channel_ok (x : Z) : Prop := 0 ≤ x ≤ 255.
Definition gamut (c : rgb) : Prop :=
  channel_ok c.1.1 ∧ channel_ok c.1.2 ∧ channel_ok c.2.

(** The coordinates a drawing call is given: the two corners of a
    bounding box, or the vertices. *)
Definition points_of (s : shape) : list point :=
  match s with
  | Ellipse (x0, y0, x1, y1) _ | Rectangle (x0, y0, x1, y1) _ =>
      [(x0, y0); (x1, y1)]
  | Polygon xy _ | Line xy _ _ => xy
  end.

(** A pixel position of the 100 by 100 image. *)
Definition on_canvas (pt : point) : Prop := 0 ≤ pt.1 ≤ 99 ∧ 0 ≤ pt.2 ≤ 99.

(** The polygon of the left horn, whatever its colour. *)
Definition is_left_horn (s : shape) : bool :=
  match s with
  | Polygon xy _ => bool_decide (xy = [(50, 12); (54, 25); (46, 25)])
  | _ => false
  end.

(** An ellipse whose bounding box is 8 by 8: the size of a petal. *)
Definition is_petal_sized (s : shape) : bool :=
  match s with
  | Ellipse (x0, y0, x1, y1) _ => (x1 - x0 =? 8) && (y1 - y0 =? 8)
  | _ => false
  end.

(** Two entries of the catalogue, one with spots and one without; a
    creature whose red channel is beyond the doubles; a world with no
    file, nothing printed and the tape of zeros. *)
Definition two_entries : list (string * params) :=
  [("verdant_dewhopper"%string,
    {| Key.color := Some (119, 178, 187); Key.tail := Some "long"%string;
       Key.horns := Some false; Key.horns_color := None;
       Key.spines := Some 0; Key.crest := Some false;
       Key.spots := Some true; Key.fins := Some true;
       Key.allow_crest_unique := None |});
   ("verdant_leaflon"%string,
    {| Key.color := Some (76, 174, 79); Key.tail := Some "leaf"%string;
       Key.horns := Some false; Key.horns_color := None;
       Key.spines := Some 1; Key.crest := Some false;
       Key.spots := Some false; Key.fins := Some false;
       Key.allow_crest_unique := None |})].


Definition blank_world : world := World ∅ [] zero_rng.

(* ===================================================================== *)
(** ** Properties                                                         *)
(* ===================================================================== *)

(** *** What a run of the renderer paints *)

Lemma extend_nil (im : image) : extend [] im = im.
Proof. destruct im. unfold extend. cbn. by rewrite app_nil_r. Qed.

Lemma extend_extend (ss1 ss2 : list shape) (im : image) :
  extend ss2 (extend ss1 im) = extend (ss1 ++ ss2) im.
Proof. unfold extend. cbn. by rewrite app_assoc. Qed.

Lemma paints_skip (st : state) : paints skip st [] (gen st).
Proof. unfold paints, skip. destruct st. cbn. by rewrite extend_nil. Qed.

Lemma paints_draw_shape (s : shape) (st : state) :
  paints (draw_shape s) st [s] (gen st).
Proof. reflexivity. Qed.

Lemma paints_seq (m1 m2 : Render unit) (st : state) ss1 ss2 g1 g2 :
  paints m1 st ss1 g1 →
  paints m2 (State (extend ss1 (img st)) g1) ss2 g2 →
  paints (m1 ;; m2) st (ss1 ++ ss2) g2.
Proof.
  unfold paints. intros H1 H2. unfold mbind, render_bind.
  rewrite H1, H2. cbn. by rewrite extend_extend.
Qed.

Lemma paints_for_each {A} (f : A → shape) (xs : list A) (st : state) :
  paints (for_each xs (λ x, draw_shape (f x))) st (f <$> xs) (gen st).
Proof.
  revert st. induction xs as [|x xs IH]; intros st.
  - apply paints_skip.
  - cbn [for_each].
    exact (paints_seq _ _ st [f x] (f <$> xs) (gen st) (gen st)
             (paints_draw_shape (f x) st) (IH _)).
Qed.

Lemma lift_some_bind {A B} (x : A) (f : A → Render B) (st : state) :
  (lift (Some x) ≫= f) st = f x st.
Proof. reflexivity. Qed.

Lemma for_each_ext {A} (xs : list A) (f f' : A → Render unit) :
  (∀ x, f x = f' x) → for_each xs f = for_each xs f'.
Proof.
  intros Hf. induction xs as [|x xs IH]; [reflexivity|].
  cbn [for_each]. by rewrite Hf, IH.
Qed.

Lemma paints_cons (m1 m2 : Render unit) (st : state) s ss g1 g2 :
  paints m1 st [s] g1 →
  paints m2 (State (extend [s] (img st)) g1) ss g2 →
  paints (m1 ;; m2) st (s :: ss) g2.
Proof. apply (paints_seq m1 m2 st [s] ss). Qed.

(** Straight-line painting: one shape after the other. *)
Ltac paint_steps :=
  repeat first
    [ exact (paints_draw_shape _ _)
    | eapply paints_cons; [exact (paints_draw_shape _ _)|]; cbn [img gen] ].

Lemma paints_body (c : rgb) (st : state) :
  paints (draw_body c) st (body_shapes c) (gen st).
Proof. unfold draw_body, body_shapes. paint_steps. Qed.

Lemma paints_tail (t : string) (c : rgb) (st : state) :
  paints (draw_tail t c) st (tail_shapes t c) (gen st).
Proof.
  unfold draw_tail, tail_shapes.
  repeat case_bool_decide; paint_steps.
Qed.

Lemma paints_horns (h : bool) (hc : option rgb) (c : rgb) (st : state) :
  paints (draw_horns h hc c) st (horn_shapes h hc c) (gen st).
Proof.
  destruct h; [|apply paints_skip].
  unfold draw_horns, horn_shapes. paint_steps.
Qed.

Lemma paints_spines (n : Z) (c : rgb) (st : state) :
  paints (draw_spines n c) st (spine_shapes n c) (gen st).
Proof. exact (paints_for_each (spine c) (range n) st). Qed.

Lemma paints_crest (cr unique : bool) (st : state) :
  paints (draw_crest cr unique) st (crest_shapes cr unique) (gen st).
Proof.
  destruct cr; [|apply paints_skip].
  unfold draw_crest, crest_shapes.
  erewrite for_each_ext; [apply (paints_for_each (petal unique))|].
  intros i. unfold petal, ellipse. cbn beta iota.
  destruct (petal_offset i) as [dx dy], unique; reflexivity.
Qed.

(** One turn of the loop that scatters the spots. *)
Lemma paints_one_spot (c : rgb) (st : state) :
  paints (sx ← randint 30 70; sy ← randint 50 85;
          ellipse (sx - 2, sy - 2, sx + 2, sy + 2)
                  (tuple_map (λ c, Z.max 0 (c - 40)) c))
         st
         [spot c (30 + gen st 0%nat `mod` 41, 50 + gen st 1%nat `mod` 36)]
         (λ n, gen st (2 + n)%nat).
Proof. reflexivity. Qed.

Lemma paints_spots (sp : bool) (c : rgb) (st : state) :
  paints (draw_spots sp c) st (spot_shapes sp c (gen st)) (after_spots sp (gen st)).
Proof.
  destruct sp; [|apply paints_skip].
  unfold draw_spots, spot_shapes, after_spots.
  change (range 6) with [0; 1; 2; 3; 4; 5].
  change (spot_positions (gen st)) with
    ((λ i : nat, (30 + gen st (2 * i)%nat `mod` 41,
                  50 + gen st (2 * i + 1)%nat `mod` 36)) <$> [0; 1; 2; 3; 4; 5]%nat).
  cbn [for_each fmap list_fmap].
  do 6 (eapply paints_cons; [apply paints_one_spot|]).
  apply paints_skip.
Qed.

Lemma paints_fins (f : bool) (c : rgb) (st : state) :
  paints (draw_fins f c) st (fin_shapes f c) (gen st).
Proof.
  destruct f; [|apply paints_skip].
  exact (paints_for_each (fin c) (range 3) st).
Qed.

Lemma paints_eyes (st : state) : paints draw_eyes st eye_shapes (gen st).
Proof. unfold draw_eyes, eye_shapes. paint_steps. Qed.

(** The renderer raises exactly when the colour shift does; otherwise it
    paints [picture] on a blank 100x100 RGBA image. *)
Lemma draw_creature_run (p : params) (unique : bool) (g : Random.rng) :
  draw_creature p unique g =
  l ← effective p unique;
  Some (Image "RGBA" (100, 100) (0, 0, 0, 0) (picture l unique g),
        after_spots (spots l) g).
Proof.
  unfold draw_creature, render.
  destruct (effective p unique) as [l|]; [|reflexivity].
  set (st0 := State _ g).
  assert (H : paints
    (draw_body (colour l) ;; draw_tail (tail_shape l) (colour l) ;;
     draw_horns (horns l) (horns_colour l) (colour l) ;;
     draw_spines (spines l) (colour l) ;; draw_crest (crest l) unique ;;
     draw_spots (spots l) (colour l) ;; draw_fins (fins l) (colour l) ;;
     draw_eyes) st0 (picture l unique g) (after_spots (spots l) g)).
  { unfold picture.
    eapply paints_seq; [apply paints_body|].
    eapply paints_seq; [apply paints_tail|].
    eapply paints_seq; [apply paints_horns|].
    eapply paints_seq; [apply paints_spines|].
    eapply paints_seq; [apply paints_crest|].
    eapply paints_seq; [apply paints_spots|].
    eapply paints_seq; [apply paints_fins|].
    apply paints_eyes. }
  unfold paints in H. rewrite lift_some_bind, H. reflexivity.
Qed.

Lemma draw_creature_inv (p : params) (unique : bool) (g g' : Random.rng)
    (im : image) :
  draw_creature p unique g = Some (im, g') →
  ∃ l, effective p unique = Some l
       ∧ im = Image "RGBA" (100, 100) (0, 0, 0, 0) (picture l unique g)
       ∧ g' = after_spots (spots l) g.
Proof.
  rewrite draw_creature_run. intros H.
  destruct (effective p unique) as [l|]; [|discriminate].
  cbn in H. exists l. by simplify_eq.
Qed.

(** The base variant never raises. *)
Lemma draw_creature_base (p : params) (g : Random.rng) :
  draw_creature p false g =
  Some (Image "RGBA" (100, 100) (0, 0, 0, 0) (picture (extract p) false g),
        after_spots (spots (extract p)) g).
Proof. by rewrite draw_creature_run. Qed.

(** *** The unique variant *)

(** C1. Whenever the unique variant is rendered, what is painted is the
    picture of features derived from the base ones: horns inverted, spine
    count [(spines + 2) mod 5], spots and fins inverted, crest inverted
    unless ['allow_crest_unique'] is false, in which case it is kept. *)
Theorem unique_features_inverted (p : params) (g g' : Random.rng) (im : image) :
  draw_creature p true g = Some (im, g') →
  ∃ lu : locals,
    effective p false = Some (extract p)
    ∧ effective p true = Some lu
    ∧ drawn im = picture lu true g
    ∧ horns lu = negb (horns (extract p))
    ∧ spines lu = (spines (extract p) + 2) `mod` 5
    ∧ spots lu = negb (spots (extract p))
    ∧ fins lu = negb (fins (extract p))
    ∧ crest lu = (if decide (Key.allow_crest_unique p = Some false)
                  then crest (extract p) else negb (crest (extract p))).
Proof.
  intros H. apply draw_creature_inv in H as (lu & Heff & -> & _).
  exists lu. split; [reflexivity|]. split; [exact Heff|].
  split; [reflexivity|].
  unfold effective, make_unique in Heff.
  destruct (tuple_mapM unique_channel (colour (extract p))) as [c'|];
    [|discriminate].
  cbn in Heff. inversion Heff; subst lu; clear Heff. cbn [horns spines spots fins crest].
  repeat split.
  destruct (Key.allow_crest_unique p) as [[]|]; reflexivity.
Qed.

(** C3 (as amended). [verdant_leaflon], the first entry of the catalogue:
    the base picture has the leaf tail with its vein, one spine and none
    of horns, crest, spots, fins; the unique picture has horns, three
    spines, the crest, spots and fins, on the body colour (133, 201, 135). *)
Theorem verdant_leaflon_pictures :
  ∃ p : params,
    head CREATURES = Some ("verdant_leaflon"%string, p)
    ∧ Key.color p = Some (76, 174, 79)
    ∧ Key.tail p = Some "leaf"%string
    ∧ Key.spines p = Some 1
    ∧ (∀ g, draw_creature p false g =
         Some (Image "RGBA" (100, 100) (0, 0, 0, 0)
                 [Ellipse (20, 40, 80, 90) (76, 174, 79);
                  Ellipse (40, 20, 80, 60) (76, 174, 79);
                  Rectangle (30, 80, 40, 95) (76, 174, 79);
                  Rectangle (55, 80, 65, 95) (76, 174, 79);
                  Polygon [(20, 70); (10, 50); (20, 55); (15, 65)] (76, 174, 79);
                  Line [(15, 55); (15, 65)] (0, 100, 0) 1;
                  Polygon [(30, 38); (35, 28); (40, 38)] (46, 144, 49);
                  Ellipse (53, 28, 59, 34) (255, 255, 255);
                  Ellipse (55, 30, 57, 32) (0, 0, 0);
                  Ellipse (39, 28, 45, 34) (255, 255, 255);
                  Ellipse (41, 30, 43, 32) (0, 0, 0)], g))
    ∧ effective p true =
        Some {| colour := (133, 201, 135); tail_shape := "leaf";
                horns := true; horns_colour := None; spines := 3;
                crest := true; spots := true; fins := true |}
    ∧ (∀ g, draw_creature p true g =
         Some (Image "RGBA" (100, 100) (0, 0, 0, 0)
                 ([Ellipse (20, 40, 80, 90) (133, 201, 135);
                   Ellipse (40, 20, 80, 60) (133, 201, 135);
                   Rectangle (30, 80, 40, 95) (133, 201, 135);
                   Rectangle (55, 80, 65, 95) (133, 201, 135);
                   Polygon [(20, 70); (10, 50); (20, 55); (15, 65)] (133, 201, 135);
                   Line [(15, 55); (15, 65)] (0, 100, 0) 1;
                   Polygon [(50, 12); (54, 25); (46, 25)] (173, 241, 175);
                   Polygon [(60, 12); (64, 25); (56, 25)] (173, 241, 175);
                   Polygon [(30, 38); (35, 28); (40, 38)] (103, 171, 105);
                   Polygon [(40, 36); (45, 26); (50, 36)] (103, 171, 105);
                   Polygon [(50, 34); (55, 24); (60, 34)] (103, 171, 105)]
                  ++ (petal true <$> [0; 1; 2; 3; 4; 5])
                  ++ (spot (133, 201, 135) <$> spot_positions g)
                  ++ [Polygon [(35, 35); (42, 25); (49, 35)] (193, 255, 195);
                      Polygon [(50, 32); (57, 22); (64, 32)] (193, 255, 195);
                      Polygon [(65, 29); (72, 19); (79, 29)] (193, 255, 195);
                      Ellipse (53, 28, 59, 34) (255, 255, 255);
                      Ellipse (55, 30, 57, 32) (0, 0, 0);
                      Ellipse (39, 28, 45, 34) (255, 255, 255);
                      Ellipse (41, 30, 43, 32) (0, 0, 0)]),
               λ n, g (12 + n)%nat)).
Proof.
  eexists. split; [reflexivity|].
  match goal with
  | |- context [effective ?p true = _] =>
      assert (Hu : effective p true
        = Some {| colour := (133, 201, 135); tail_shape := "leaf";
                  horns := true; horns_colour := None; spines := 3;
                  crest := true; spots := true; fins := true |})
        by (vm_compute; reflexivity)
  end.
  do 3 (split; [reflexivity|]).
  split; [intros g; rewrite draw_creature_base; reflexivity|].
  split; [exact Hu|].
  intros g. rewrite draw_creature_run, Hu. reflexivity.
Qed.

(** *** Format and determinism *)



Lemma spot_positions_box (g : Random.rng) :
  Forall (λ xy : Z * Z, 30 ≤ xy.1 ≤ 70 ∧ 50 ≤ xy.2 ≤ 85) (spot_positions g).
Proof.
  unfold spot_positions. apply Forall_fmap, Forall_forall. intros i _.
  unfold compose. cbn [fst snd].
  pose proof (Z.mod_pos_bound (g (2 * i)%nat) 41 eq_refl).
  pose proof (Z.mod_pos_bound (g (2 * i + 1)%nat) 36 eq_refl).
  lia.
Qed.


(** C10. The empty dictionary renders, on defaults for every key, the
    colour included: body (120, 200, 120), the normal tail, and no horns,
    spines, crest, spots or fins. *)
Theorem empty_params_defaults :
  let p := Key.Params None None None None None None None None None in
  effective p false =
    Some {| colour := (120, 200, 120); tail_shape := "normal";
            horns := false; horns_colour := None; spines := 0;
            crest := false; spots := false; fins := false |}
  ∧ ∀ g, draw_creature p false g =
      Some (Image "RGBA" (100, 100) (0, 0, 0, 0)
              [Ellipse (20, 40, 80, 90) (120, 200, 120);
               Ellipse (40, 20, 80, 60) (120, 200, 120);
               Rectangle (30, 80, 40, 95) (120, 200, 120);
               Rectangle (55, 80, 65, 95) (120, 200, 120);
               Polygon [(20, 70); (10, 65); (20, 60)] (120, 200, 120);
               Ellipse (53, 28, 59, 34) (255, 255, 255);
               Ellipse (55, 30, 57, 32) (0, 0, 0);
               Ellipse (39, 28, 45, 34) (255, 255, 255);
               Ellipse (41, 30, 43, 32) (0, 0, 0)], g).
Proof.
  split; [reflexivity|]. intros g. rewrite draw_creature_base. reflexivity.
Qed.

(** *** The tail and the colours of the features *)

Lemma filter_fmap_none {A} (f : shape → bool) (h : A → shape) (xs : list A) :
  (∀ x, x ∈ xs → f (h x) = false) → List.filter f (h <$> xs) = [].
Proof.
  induction xs as [|x xs IH]; intros Hf; [reflexivity|].
  cbn. rewrite (Hf x) by left. apply IH. intros y Hy. apply Hf. by right.
Qed.

Lemma range_nonneg (n i : Z) : i ∈ range n → 0 ≤ i.
Proof.
  unfold range. intros (k & -> & _)%list_elem_of_fmap. lia.
Qed.

Lemma range_length (n : Z) : length (range n) = Z.to_nat n.
Proof. unfold range. by rewrite length_fmap, length_seq. Qed.

Lemma effective_tail_shape (p : params) (unique : bool) (l : locals) :
  effective p unique = Some l → tail_shape l = default "normal"%string (Key.tail p).
Proof.
  unfold effective, make_unique. destruct unique.
  - destruct (tuple_mapM _ _); [|discriminate]. cbn. by intros [= <-].
  - by intros [= <-].
Qed.

(** What [in_tail_region] and [is_line] keep of the picture: the tail. *)
Lemma picture_tail_region (l : locals) (unique : bool) (g : Random.rng) :
  List.filter in_tail_region (picture l unique g)
  = tail_shapes (tail_shape l) (colour l).
Proof.
  unfold picture. rewrite !List.filter_app.
  assert (Ht : List.filter in_tail_region (tail_shapes (tail_shape l) (colour l))
               = tail_shapes (tail_shape l) (colour l)).
  { unfold tail_shapes. repeat case_bool_decide; reflexivity. }
  assert (Hh : List.filter in_tail_region
                 (horn_shapes (horns l) (horns_colour l) (colour l)) = []).
  { destruct (horns l); reflexivity. }
  assert (Hs : List.filter in_tail_region (spine_shapes (spines l) (colour l)) = []).
  { apply filter_fmap_none. intros i Hi%range_nonneg.
    unfold spine, in_tail_region. cbn [forallb fst].
    rewrite (proj2 (Z.leb_gt _ _)) by lia. reflexivity. }
  assert (Hc : List.filter in_tail_region (crest_shapes (crest l) unique) = []).
  { destruct (crest l); [|reflexivity]. by apply filter_fmap_none. }
  assert (Hp : List.filter in_tail_region
                 (spot_shapes (spots l) (colour l) g) = []).
  { destruct (spots l); [|reflexivity]. by apply filter_fmap_none. }
  assert (Hf : List.filter in_tail_region (fin_shapes (fins l) (colour l)) = []).
  { destruct (fins l); reflexivity. }
  rewrite Ht, Hh, Hs, Hc, Hp, Hf. cbn. by rewrite app_nil_r.
Qed.

Lemma picture_lines (l : locals) (unique : bool) (g : Random.rng) :
  List.filter is_line (picture l unique g)
  = List.filter is_line (tail_shapes (tail_shape l) (colour l)).
Proof.
  unfold picture. rewrite !List.filter_app.
  assert (Hh : List.filter is_line
                 (horn_shapes (horns l) (horns_colour l) (colour l)) = []).
  { destruct (horns l); reflexivity. }
  assert (Hs : List.filter is_line (spine_shapes (spines l) (colour l)) = []).
  { by apply filter_fmap_none. }
  assert (Hc : List.filter is_line (crest_shapes (crest l) unique) = []).
  { destruct (crest l); [|reflexivity]. by apply filter_fmap_none. }
  assert (Hp : List.filter is_line (spot_shapes (spots l) (colour l) g) = []).
  { destruct (spots l); [|reflexivity]. by apply filter_fmap_none. }
  assert (Hf : List.filter is_line (fin_shapes (fins l) (colour l)) = []).
  { destruct (fins l); reflexivity. }
  rewrite Hh, Hs, Hc, Hp, Hf. cbn. by rewrite app_nil_r.
Qed.

(** C6. In every rendered image exactly one tail is found left of the
    body, chosen by the tail value: ['leaf'] gives a four-point polygon
    and a vein, ['long'] a three-point polygon, ['fin'] a three-point
    polygon and a vein, and any other value (['normal'], a missing key,
    an unknown string) the small three-point polygon; the image holds no
    other line than that vein. *)
Theorem one_tail_shape (p : params) (unique : bool) (g g' : Random.rng)
    (im : image) :
  draw_creature p unique g = Some (im, g') →
  ∃ c : rgb,
    colour <$> effective p unique = Some c
    ∧ List.filter in_tail_region (drawn im) =
        (let t := default "normal"%string (Key.tail p) in
         if decide (t = "leaf"%string) then
           [Polygon [(20, 70); (10, 50); (20, 55); (15, 65)] c;
            Line [(15, 55); (15, 65)] (0, 100, 0) 1]
         else if decide (t = "long"%string) then
           [Polygon [(20, 75); (5, 65); (20, 55)] c]
         else if decide (t = "fin"%string) then
           [Polygon [(20, 70); (5, 60); (20, 50)] c;
            Line [(12, 58); (12, 65)] (0, 150, 200) 1]
         else
           [Polygon [(20, 70); (10, 65); (20, 60)] c])
    ∧ List.filter is_line (drawn im)
      = List.filter is_line (List.filter in_tail_region (drawn im)).
Proof.
  intros H. apply draw_creature_inv in H as (l & Heff & -> & _).
  exists (colour l). rewrite Heff. split; [reflexivity|].
  cbn [drawn]. rewrite picture_lines, picture_tail_region.
  rewrite (effective_tail_shape _ _ _ Heff). split; [|reflexivity].
  unfold tail_shapes. cbn zeta.
  repeat case_bool_decide; repeat case_decide; congruence.
Qed.

(** C7. The colours of the features come from the body colour that is
    drawn, channel by channel: the two horns take the given horn colour
    or else [min(255, c+40)], every spine [max(0, c-30)], every spot
    [max(0, c-40)] and each of the three fins [min(255, c+60)]. *)
Theorem feature_colours (p : params) (unique : bool) (g g' : Random.rng)
    (im : image) :
  draw_creature p unique g = Some (im, g') →
  ∃ l : locals,
    effective p unique = Some l
    ∧ let c := colour l in
      let hs := horn_shapes (horns l) (horns_colour l) c in
      let ss := spine_shapes (spines l) c in
      let ps := spot_shapes (spots l) c g in
      let fs := fin_shapes (fins l) c in
      drawn im = body_shapes c ++ tail_shapes (tail_shape l) c ++ hs ++ ss
                 ++ crest_shapes (crest l) unique ++ ps ++ fs ++ eye_shapes
      ∧ length hs = (if horns l then 2 else 0)%nat
      ∧ Forall (λ s, fill_of s =
                     match horns_colour l with
                     | Some hc => hc
                     | None => tuple_map (λ x, Z.min 255 (x + 40)) c
                     end) hs
      ∧ length ss = Z.to_nat (spines l)
      ∧ Forall (λ s, fill_of s = tuple_map (λ x, Z.max 0 (x - 30)) c) ss
      ∧ length ps = (if spots l then 6 else 0)%nat
      ∧ Forall (λ s, fill_of s = tuple_map (λ x, Z.max 0 (x - 40)) c) ps
      ∧ length fs = (if fins l then 3 else 0)%nat
      ∧ Forall (λ s, fill_of s = tuple_map (λ x, Z.min 255 (x + 60)) c) fs.
Proof.
  intros H. apply draw_creature_inv in H as (l & Heff & -> & _).
  exists l. split; [exact Heff|]. cbn zeta.
  split; [reflexivity|].
  split; [by destruct (horns l)|].
  split.
  { destruct (horns l); [|constructor].
    unfold horn_shapes. destruct (horns_colour l); repeat constructor. }
  split; [unfold spine_shapes; by rewrite length_fmap, range_length|].
  split; [by apply Forall_fmap, Forall_forall|].
  split; [by destruct (spots l)|].
  split.
  { destruct (spots l); [|constructor]. by apply Forall_fmap, Forall_forall. }
  split; [by destruct (fins l)|].
  destruct (fins l); [|constructor]. by apply Forall_fmap, Forall_forall.
Qed.

(** *** The driver *)

Lemma string_app_assoc (s1 s2 s3 : string) :
  (s1 +:+ s2) +:+ s3 = s1 +:+ (s2 +:+ s3).
Proof.
  induction s1 as [|a s1 IH]; [reflexivity|].
  change (String a ((s1 +:+ s2) +:+ s3) = String a (s1 +:+ (s2 +:+ s3))).
  by rewrite IH.
Qed.

Lemma last_char_None (s : string) : PosixPath.last_char s = None → s = EmptyString.
Proof.
  induction s as [|a s IH]; [done|]. cbn. destruct s; [done|].
  intros H. by apply IH in H.
Qed.

Lemma last_char_app (s t : string) :
  t ≠ EmptyString → PosixPath.last_char (s +:+ t) = PosixPath.last_char t.
Proof.
  intros Ht. induction s as [|a s IH]; [reflexivity|].
  change (PosixPath.last_char (String a (s +:+ t)) = PosixPath.last_char t).
  rewrite <- IH. destruct (s +:+ t)%string eqn:E; [|reflexivity].
  destruct s, t; done.
Qed.

(** Joining a file name to a directory that does not end with a slash. *)
Lemma join_dir_file (d f : string) :
  d ≠ EmptyString → PosixPath.endswith_sep d = false →
  PosixPath.startswith_sep f = false →
  PosixPath.join d f = d +:+ "/" +:+ f.
Proof.
  intros Hd He Hf. unfold PosixPath.join. rewrite Hf, He.
  by rewrite bool_decide_eq_false_2.
Qed.

Lemma join_assets (leaf : string) :
  PosixPath.startswith_sep leaf = false →
  PosixPath.join ASSETS_DIR leaf = assets_prefix +:+ leaf.
Proof.
  intros Hl. unfold PosixPath.join, assets_prefix. rewrite Hl.
  destruct (_ || _); [reflexivity|]. by rewrite string_app_assoc.
Qed.

Lemma base_output_eq : BASE_OUTPUT = assets_prefix +:+ "base".
Proof. by apply join_assets. Qed.

Lemma unique_output_eq : UNIQUE_OUTPUT = assets_prefix +:+ "unique".
Proof. by apply join_assets. Qed.

Lemma join_under (pre dir f : string) :
  dir ≠ EmptyString → PosixPath.endswith_sep dir = false →
  PosixPath.startswith_sep f = false →
  PosixPath.join (pre +:+ dir) f = pre +:+ (dir +:+ "/" +:+ f).
Proof.
  intros Hd He Hf.
  assert (Hl : PosixPath.last_char (pre +:+ dir) = PosixPath.last_char dir)
    by by apply last_char_app.
  rewrite join_dir_file; [by rewrite string_app_assoc| |by unfold PosixPath.endswith_sep in *; rewrite Hl|done].
  intros E. rewrite E in Hl. by apply Hd, last_char_None.
Qed.

Lemma entry_paths_leaves (e : string * params) :
  plain_name e → entry_paths e = String.app assets_prefix <$> entry_leaves e.
Proof.
  intros [Hb Hu]. unfold entry_paths, entry_leaves, base_path_of, unique_path_of.
  rewrite base_output_eq, unique_output_eq.
  rewrite (join_under _ "base"), (join_under _ "unique") by done.
  reflexivity.
Qed.

Lemma paths_leaves (es : list (string * params)) :
  Forall plain_name es →
  es ≫= entry_paths = String.app assets_prefix <$> (es ≫= entry_leaves).
Proof.
  induction 1 as [|e es He Hes IH]; [reflexivity|].
  rewrite !bind_cons, fmap_app, IH, entry_paths_leaves by done. reflexivity.
Qed.

Lemma creatures_plain : Forall plain_name CREATURES.
Proof.
  apply Forall_forall. intros e He.
  assert (H : forallb (λ e : string * params,
              negb (PosixPath.startswith_sep (e.1 +:+ "_base.png"))
              && negb (PosixPath.startswith_sep (e.1 +:+ "_unique.png")))
            CREATURES = true) by (vm_compute; reflexivity).
  rewrite forallb_forall in H. apply list_elem_of_In, H in He.
  apply andb_prop in He as [H1 H2]. split; by apply negb_true_iff.
Qed.

Lemma creatures_paths_nodup : NoDup (CREATURES ≫= entry_paths).
Proof.
  rewrite paths_leaves by apply creatures_plain.
  apply (NoDup_fmap_2 _).
  apply (bool_decide_unpack _). vm_compute. exact I.
Qed.

(** Every creature of the catalogue has a unique variant: no colour
    shift overflows. *)
Lemma creatures_render : Forall (λ e, is_Some (effective e.2 true)) CREATURES.
Proof.
  apply Forall_forall. intros e He.
  assert (H : forallb (λ e : string * params,
              match effective e.2 true with Some _ => true | None => false end)
            CREATURES = true) by (vm_compute; reflexivity).
  rewrite forallb_forall in H. apply list_elem_of_In, H in He.
  destruct (effective e.2 true); [by eexists | discriminate].
Qed.

Lemma generate_entry_ok (name : string) (p : params) (w : world) :
  is_Some (effective p true) →
  ∃ (base_img unique_img : image) (g2 g3 : Random.rng),
    draw_creature p false (entropy w) = Some (base_img, g2)
    ∧ draw_creature p true g2 = Some (unique_img, g3)
    ∧ generate_entry (name, p) w =
        Finished (World (<[unique_path_of name := unique_img]>
                           (<[base_path_of name := base_img]> (files w)))
                        (stdout w ++ ["Generated " +:+ base_path_of name
                                      +:+ " and unique variant"])
                        g3).
Proof.
  intros [lu Hu]. unfold generate_entry.
  rewrite draw_creature_base. rewrite draw_creature_run, Hu. cbn.
  eexists _, _, _, _. split; [reflexivity|].
  split; [|reflexivity]. rewrite draw_creature_run, Hu. reflexivity.
Qed.

Lemma generate_from_ok (es : list (string * params)) :
  Forall (λ e, is_Some (effective e.2 true)) es →
  ∀ w : world, ∃ w' : world,
    generate_from es w = Finished w'
    ∧ dom (files w') = dom (files w) ∪ list_to_set (es ≫= entry_paths)
    ∧ (∀ path, path ∉ es ≫= entry_paths → files w' !! path = files w !! path)
    ∧ (NoDup (es ≫= entry_paths) → ∀ name p, (name, p) ∈ es →
        ∃ (g1 g2 g3 : Random.rng) (base_img unique_img : image),
          draw_creature p false g1 = Some (base_img, g2)
          ∧ draw_creature p true g2 = Some (unique_img, g3)
          ∧ files w' !! base_path_of name = Some base_img
          ∧ files w' !! unique_path_of name = Some unique_img).
Proof.
  induction 1 as [|[name p] es Hp Hes IH]; intros w.
  - exists w. split; [done|]. split; [set_solver|]. split; [done|].
    intros _ ?? H. by apply elem_of_nil in H.
  - destruct (generate_entry_ok name p w Hp)
      as (im1 & im2 & g2 & g3 & Hd1 & Hd2 & Hstep).
    cbn [generate_from]. rewrite Hstep.
    match goal with |- context [generate_from es ?w1] =>
      destruct (IH w1) as (w' & Hrun & Hdom & Hframe & Hnew) end.
    cbn [files] in Hdom, Hframe.
    exists w'. split; [done|].
    rewrite bind_cons. cbn [entry_paths fst app].
    split; [rewrite Hdom, !dom_insert_L; set_solver|].
    split.
    { intros path Hpath. rewrite Hframe by set_solver.
      rewrite !lookup_insert_ne by set_solver. done. }
    intros Hnd name' p' Hin.
    apply NoDup_cons in Hnd as [Hb Hnd]. apply NoDup_cons in Hnd as [Hu Hnd].
    apply elem_of_cons in Hin as [[= -> ->]|Hin]; [|by apply Hnew].
    exists (entropy w), g2, g3, im1, im2.
    split; [done|]. split; [done|].
    rewrite !Hframe by set_solver.
    rewrite lookup_insert_ne by set_solver.
    by rewrite !lookup_insert_eq.
Qed.

Lemma paths_plain (e : string * params) :
  plain_name e →
  base_path_of e.1 = BASE_OUTPUT +:+ "/" +:+ e.1 +:+ "_base.png"
  ∧ unique_path_of e.1 = UNIQUE_OUTPUT +:+ "/" +:+ e.1 +:+ "_unique.png".
Proof.
  intros [Hb Hu]. unfold base_path_of, unique_path_of.
  rewrite base_output_eq, unique_output_eq.
  rewrite (join_under _ "base"), (join_under _ "unique") by done.
  by rewrite !string_app_assoc.
Qed.

(** C9. The catalogue has fifty entries.  A run of the driver ends
    normally; for every entry it renders the base and then the unique
    variant and stores them as [<name>_base.png] under the base directory
    and [<name>_unique.png] under the unique directory, replacing what was
    there; the hundred paths are distinct and nothing else is touched. *)
Theorem catalogue_run (w : world) :
  length CREATURES = 50%nat
  ∧ ∃ w' : world,
      generate_all w = Finished w'
      ∧ (let paths := CREATURES ≫= entry_paths in
         length paths = 100%nat
         ∧ NoDup paths
         ∧ dom (files w') = dom (files w) ∪ list_to_set paths
         ∧ (∀ path, path ∉ paths → files w' !! path = files w !! path)
         ∧ (files w = ∅ → base.size (files w') = 100%nat))
      ∧ ∀ name p, (name, p) ∈ CREATURES →
          base_path_of name = BASE_OUTPUT +:+ "/" +:+ name +:+ "_base.png"
          ∧ unique_path_of name
            = UNIQUE_OUTPUT +:+ "/" +:+ name +:+ "_unique.png"
          ∧ (∃ (g1 g2 g3 : Random.rng) (base_img unique_img : image),
               draw_creature p false g1 = Some (base_img, g2)
               ∧ draw_creature p true g2 = Some (unique_img, g3)
               ∧ files w' !! base_path_of name = Some base_img
               ∧ files w' !! unique_path_of name = Some unique_img)
          ∧ (∀ w0 : world, ∃ (w1 : world) (base_img unique_img : image),
               generate_entry (name, p) w0 = Finished w1
               ∧ files w1 = <[unique_path_of name := unique_img]>
                              (<[base_path_of name := base_img]> (files w0))).
Proof.
  split; [reflexivity|].
  destruct (generate_from_ok CREATURES creatures_render w)
    as (w' & Hrun & Hdom & Hframe & Hnew).
  exists w'. split; [exact Hrun|].
  assert (Hlen : length (CREATURES ≫= entry_paths) = 100%nat) by reflexivity.
  split.
  { cbn zeta. split; [exact Hlen|]. split; [apply creatures_paths_nodup|].
    split; [exact Hdom|]. split; [exact Hframe|].
    intros Hempty. rewrite <- size_dom, Hdom, Hempty, dom_empty_L, (left_id_L ∅ (∪)).
    rewrite size_list_to_set by apply creatures_paths_nodup. exact Hlen. }
  intros name p Hin.
  assert (Hplain : plain_name (name, p)).
  { pose proof creatures_plain as H. rewrite Forall_forall in H. by apply H. }
  destruct (paths_plain _ Hplain) as [Hb Hu]. cbn [fst] in Hb, Hu.
  split; [exact Hb|]. split; [exact Hu|].
  split; [by apply (Hnew creatures_paths_nodup)|].
  intros w0.
  assert (Hr : is_Some (effective p true)).
  { pose proof creatures_render as H. rewrite Forall_forall in H.
    by apply (H (name, p)). }
  destruct (generate_entry_ok name p w0 Hr)
    as (im1 & im2 & g2 & g3 & _ & _ & Hstep).
  eexists _, im1, im2. split; [exact Hstep|reflexivity].
Qed.

End Creatures.

(* ===================================================================== *)
(** ** The colour shift of the unique variant                             *)
(* ===================================================================== *)

Lemma channel_range_spec (c : Z) : 0 ≤ c ≤ 255 → c ∈ channel_range.
Proof.
  intros Hc. unfold channel_range.
  apply list_elem_of_fmap. exists (Z.to_nat c). split; [lia|].
  apply elem_of_seq. lia.
Qed.

(** A boolean property checked on every 8-bit value holds on [0..255]. *)
Lemma channel_range_ind (P : Z → bool) :
  forallb P channel_range = true → ∀ c, 0 ≤ c ≤ 255 → P c = true.
Proof.
  intros HP c Hc. rewrite forallb_forall in HP.
  apply HP, list_elem_of_In, channel_range_spec, Hc.
Qed.

(** The literal is a well-formed double, *)
Lemma lit_0_7_valid : valid_binary PyFloat.prec PyFloat.emax PyFloat.lit_0_7 = true.
Proof. vm_compute. reflexivity. Qed.

(** and the correctly rounded quotient of 7 by 10. *)
Lemma lit_0_7_nearest :
  (x ← PyFloat.of_int 7; y ← PyFloat.of_int 10; Some (PyFloat.div x y))
  = Some PyFloat.lit_0_7.
Proof. vm_compute. reflexivity. Qed.

(** On 8-bit channels the two roundings of the doubles never spoil the
    integer part: [int(c * 0.7 + 80)] is [floor((7c + 800) / 10)]. *)
Lemma shifted_int_gamut (c : Z) :
  0 ≤ c ≤ 255 → shifted c ≫= PyFloat.to_int = Some ((7 * c + 800) / 10).
Proof.
  intros Hc.
  pose (P := λ c, bool_decide
    (shifted c ≫= PyFloat.to_int = Some ((7 * c + 800) / 10))).
  assert (HP : P c = true).
  { apply channel_range_ind; [|exact Hc]. vm_compute. reflexivity. }
  unfold P in HP. apply bool_decide_eq_true_1 in HP. exact HP.
Qed.

Lemma unique_channel_gamut (c : Z) :
  0 ≤ c ≤ 255 → unique_channel c = Some (Z.min 255 ((7 * c + 800) / 10)).
Proof.
  intros Hc. pose proof (shifted_int_gamut c Hc) as H.
  unfold unique_channel. destruct (shifted c) as [y|]; [|discriminate].
  cbn in H |- *. by rewrite H.
Qed.

(** C2 (as amended). On every 8-bit channel [c] the double [c*0.7+80] is
    cut to its integer part, which is [floor((7c+800)/10)], and then
    clamped at 255: the value is rounded down, not to the nearest. *)
Theorem unique_channel_truncates (c : Z) :
  0 ≤ c ≤ 255 →
  ∃ (y : spec_float) (n : Z),
    shifted c = Some y
    ∧ PyFloat.to_int y = Some n
    ∧ 10 * n ≤ 7 * c + 800 < 10 * n + 10
    ∧ unique_channel c = Some (Z.min 255 n).
Proof.
  intros Hc. pose proof (shifted_int_gamut c Hc) as H.
  unfold unique_channel.
  destruct (shifted c) as [y|]; [|discriminate]. cbn in H |- *.
  exists y, ((7 * c + 800) / 10). rewrite H. cbn.
  repeat split; Z.to_euclidean_division_equations; lia.
Qed.

(** C8. On 8-bit channels the colour shift never decreases, in particular
    not below 171, and it yields 255 exactly from the channel value 250
    on, where the clamp takes over. *)
Theorem unique_channel_monotone (c1 c2 : Z) :
  0 ≤ c1 → c1 ≤ c2 → c2 ≤ 255 →
  ∃ v1 v2 : Z,
    unique_channel c1 = Some v1
    ∧ unique_channel c2 = Some v2
    ∧ v1 ≤ v2
    ∧ (v2 = 255 ↔ 250 ≤ c2).
Proof.
  intros H0 H12 H2.
  exists (Z.min 255 ((7 * c1 + 800) / 10)), (Z.min 255 ((7 * c2 + 800) / 10)).
  rewrite !unique_channel_gamut by lia.
  repeat split; try reflexivity; Z.to_euclidean_division_equations; lia.
Qed.

(* ===================================================================== *)
(** ** The theorems at work on catalogue entries                          *)
(* ===================================================================== *)

(** [verdant_suncollar]: its crest stays, as ['allow_crest_unique'] is
    false. *)
Lemma unique_features_inverted_witness :
  let p := {| Key.color := Some (208, 131, 45); Key.tail := Some "normal"%string;
              Key.horns := Some false; Key.horns_color := None;
              Key.spines := Some 0; Key.crest := Some true;
              Key.spots := Some false; Key.fins := Some false;
              Key.allow_crest_unique := Some false |} in
  ∃ (im : image) (g' : Random.rng),
    draw_creature exact_petal_offset p true zero_rng = Some (im, g')
    ∧ ∃ lu : locals,
        effective p false = Some (extract p)
        ∧ effective p true = Some lu
        ∧ drawn im = picture exact_petal_offset lu true zero_rng
        ∧ horns lu = negb (horns (extract p))
        ∧ spines lu = (spines (extract p) + 2) `mod` 5
        ∧ spots lu = negb (spots (extract p))
        ∧ fins lu = negb (fins (extract p))
        ∧ crest lu = (if decide (Key.allow_crest_unique p = Some false)
                      then crest (extract p) else negb (crest (extract p))).
Proof.
  intros p.
  assert (H : ∃ r, draw_creature exact_petal_offset p true zero_rng = Some r).
  { rewrite draw_creature_run. eexists. vm_compute. reflexivity. }
  destruct H as [[im g'] H]. exists im, g'. split; [exact H|].
  exact (unique_features_inverted exact_petal_offset p zero_rng g' im H).
Defined.

Lemma unique_channel_truncates_witness :
  0 ≤ 174 ≤ 255
  ∧ ∃ (y : spec_float) (n : Z),
      shifted 174 = Some y
      ∧ PyFloat.to_int y = Some n
      ∧ 10 * n ≤ 7 * 174 + 800 < 10 * n + 10
      ∧ unique_channel 174 = Some (Z.min 255 n).
Proof.
  assert (H : 0 ≤ 174 ≤ 255) by lia.
  split; [exact H | exact (unique_channel_truncates 174 H)].
Defined.

(** At 174 the double is 201.8: the code gives 201, rounding gives 202
    (201 is more than a half away from 2018/10). *)
Lemma unique_channel_not_rounded :
  0 ≤ 174 ≤ 255
  ∧ unique_channel 174 = Some 201
  ∧ spec_unique_channel 174 = Some 202
  ∧ unique_channel 174 ≠ spec_unique_channel 174
  ∧ 10 < 2 * Z.abs (10 * 201 - (7 * 174 + 800)).
Proof.
  split; [lia|]. split; [vm_compute; reflexivity|].
  split; [vm_compute; reflexivity|].
  split; [vm_compute; discriminate | lia].
Qed.

(** The green channel of the unique [verdant_leaflon] is 201, not 202. *)
Lemma verdant_leaflon_not_202 :
  let p := {| Key.color := Some (76, 174, 79); Key.tail := Some "leaf"%string;
              Key.horns := Some false; Key.horns_color := None;
              Key.spines := Some 1; Key.crest := Some false;
              Key.spots := Some false; Key.fins := Some false;
              Key.allow_crest_unique := None |} in
  head CREATURES = Some ("verdant_leaflon"%string, p)
  ∧ colour <$> effective p true = Some (133, 201, 135)
  ∧ colour <$> effective p true ≠ Some (133, 202, 135).
Proof.
  split; [reflexivity|]. split; [vm_compute; reflexivity|].
  vm_compute. discriminate.
Qed.

Lemma unique_channel_monotone_witness :
  (0 ≤ 171 ∧ 171 ≤ 250 ∧ 250 ≤ 255)
  ∧ ∃ v1 v2 : Z,
      unique_channel 171 = Some v1
      ∧ unique_channel 250 = Some v2
      ∧ v1 ≤ v2
      ∧ (v2 = 255 ↔ 250 ≤ 250).
Proof.
  assert (H0 : 0 ≤ 171) by lia.
  assert (H1 : 171 ≤ 250) by lia.
  assert (H2 : 250 ≤ 255) by lia.
  split; [auto|]. exact (unique_channel_monotone 171 250 H0 H1 H2).
Defined.


Lemma one_tail_shape_witness :
  let p := {| Key.color := Some (75, 123, 199); Key.tail := Some "fin"%string;
              Key.horns := Some false; Key.horns_color := None;
              Key.spines := Some 0; Key.crest := Some false;
              Key.spots := Some true; Key.fins := Some true;
              Key.allow_crest_unique := None |} in
  ∃ (im : image) (g' : Random.rng),
    draw_creature exact_petal_offset p false zero_rng = Some (im, g')
    ∧ List.filter in_tail_region (drawn im)
      = [Polygon [(20, 70); (5, 60); (20, 50)] (75, 123, 199);
         Line [(12, 58); (12, 65)] (0, 150, 200) 1]
    ∧ List.filter is_line (drawn im)
      = List.filter is_line (List.filter in_tail_region (drawn im)).
Proof.
  intros p.
  assert (H : ∃ r, draw_creature exact_petal_offset p false zero_rng = Some r).
  { rewrite draw_creature_run. eexists. vm_compute. reflexivity. }
  destruct H as [[im g'] H]. exists im, g'. split; [exact H|].
  destruct (one_tail_shape exact_petal_offset p false zero_rng g' im H)
    as (c & Hc & Ht & Hl).
  split; [|exact Hl]. rewrite Ht.
  vm_compute in Hc. injection Hc as <-. reflexivity.
Defined.

Lemma feature_colours_witness :
  let p := {| Key.color := Some (143, 92, 49); Key.tail := Some "normal"%string;
              Key.horns := Some true; Key.horns_color := Some (189, 135, 70);
              Key.spines := Some 0; Key.crest := Some false;
              Key.spots := Some false; Key.fins := Some false;
              Key.allow_crest_unique := None |} in
  ∃ (im : image) (g' : Random.rng),
    draw_creature exact_petal_offset p false zero_rng = Some (im, g')
    ∧ ∃ l : locals,
        effective p false = Some l
        ∧ let c := colour l in
          let hs := horn_shapes (horns l) (horns_colour l) c in
          let ss := spine_shapes (spines l) c in
          let ps := spot_shapes (spots l) c zero_rng in
          let fs := fin_shapes (fins l) c in
          drawn im = body_shapes c ++ tail_shapes (tail_shape l) c ++ hs ++ ss
                     ++ crest_shapes exact_petal_offset (crest l) false
                     ++ ps ++ fs ++ eye_shapes
          ∧ length hs = (if horns l then 2 else 0)%nat
          ∧ Forall (λ s, fill_of s =
                         match horns_colour l with
                         | Some hc => hc
                         | None => tuple_map (λ x, Z.min 255 (x + 40)) c
                         end) hs
          ∧ length ss = Z.to_nat (spines l)
          ∧ Forall (λ s, fill_of s = tuple_map (λ x, Z.max 0 (x - 30)) c) ss
          ∧ length ps = (if spots l then 6 else 0)%nat
          ∧ Forall (λ s, fill_of s = tuple_map (λ x, Z.max 0 (x - 40)) c) ps
          ∧ length fs = (if fins l then 3 else 0)%nat
          ∧ Forall (λ s, fill_of s = tuple_map (λ x, Z.min 255 (x + 60)) c) fs.
Proof.
  intros p.
  assert (H : ∃ r, draw_creature exact_petal_offset p false zero_rng = Some r).
  { rewrite draw_creature_run. eexists. vm_compute. reflexivity. }
  destruct H as [[im g'] H]. exists im, g'. split; [exact H|].
  exact (feature_colours exact_petal_offset p false zero_rng g' im H).
Defined.

(* ===================================================================== *)
(** ** Further properties of the colours                                  *)
(* ===================================================================== *)

(** X1. On an 8-bit channel the shift of the unique variant never
    darkens: the new value is at least 80, at most 255, at least the old
    one, and equal to the old one only at 255. *)
Theorem unique_channel_brightens (c : Z) :
  0 ≤ c ≤ 255 →
  ∃ v : Z, unique_channel c = Some v ∧ 80 ≤ v ≤ 255 ∧ c ≤ v ∧ (v = c ↔ c = 255).
Proof.
  intros Hc. eexists. split; [by apply unique_channel_gamut|].
  Z.to_euclidean_division_equations; lia.
Qed.

Lemma unique_colour_gamut (c : rgb) :
  gamut c → ∃ c' : rgb, tuple_mapM unique_channel c = Some c' ∧ gamut c'.
Proof.
  destruct c as [[r g] b]. intros (Hr & Hg & Hb). unfold channel_ok in *.
  cbn in Hr, Hg, Hb. cbn [tuple_mapM].
  rewrite !unique_channel_gamut by done. cbn. eexists. split; [reflexivity|].
  unfold gamut, channel_ok. cbn.
  repeat split; Z.to_euclidean_division_equations; lia.
Qed.

Lemma effective_horns_colour (p : params) (unique : bool) (l : locals) :
  effective p unique = Some l → horns_colour l = Key.horns_color p.
Proof.
  unfold effective, make_unique. destruct unique.
  - destruct (tuple_mapM _ _); [|discriminate]. cbn. by intros [= <-].
  - by intros [= <-].
Qed.

Lemma effective_gamut (p : params) (unique : bool) (l : locals) :
  gamut (colour (extract p)) → effective p unique = Some l → gamut (colour l).
Proof.
  intros Hg. unfold effective, make_unique. destruct unique.
  - destruct (unique_colour_gamut _ Hg) as (c' & -> & Hc'). cbn.
    by intros [= <-].
  - by intros [= <-].
Qed.

Lemma tuple_map_gamut (f : Z → Z) (c : rgb) :
  (∀ x, channel_ok x → channel_ok (f x)) → gamut c → gamut (tuple_map f c).
Proof.
  destruct c as [[r g] b]. intros Hf (Hr & Hg & Hb).
  repeat split; by apply Hf.
Qed.

(** Split a property of an explicit list into one goal for each element. *)
Ltac each_element := repeat first [apply Forall_nil_2 | apply Forall_cons_2].

Section Further.

Variable petal_offset : Z → Z * Z.
Variable BASE_DIR : string.


(** X3. If the body colour and the horn colour of the parameters (where
    given) are 8-bit, every shape of the rendered image, base or unique,
    is filled with an 8-bit colour: the clamps of the derived colours keep
    them in range. *)
Theorem fills_in_gamut (p : params) (unique : bool) (g g' : Random.rng)
    (im : image) :
  gamut (default (120, 200, 120) (Key.color p)) →
  (∀ hc, Key.horns_color p = Some hc → gamut hc) →
  draw_creature petal_offset p unique g = Some (im, g') →
  Forall (λ s, gamut (fill_of s)) (drawn im).
Proof.
  intros Hc Hh H. apply draw_creature_inv in H as (l & Heff & -> & _).
  pose proof (effective_gamut p unique l Hc Heff) as Hl.
  pose proof (effective_horns_colour p unique l Heff) as Hhc.
  assert (Hfix : ∀ a b c : Z, 0 ≤ a ≤ 255 → 0 ≤ b ≤ 255 → 0 ≤ c ≤ 255 →
                 gamut (a, b, c)) by (intros; repeat split; cbn; lia).
  cbn [drawn]. unfold picture. repeat apply Forall_app_2.
  - each_element; exact Hl.
  - unfold tail_shapes. repeat case_bool_decide;
      each_element; cbn [fill_of]; try exact Hl; apply Hfix; lia.
  - unfold horn_shapes. destruct (horns l); [|constructor].
    assert (gamut (default (tuple_map (λ c, Z.min 255 (c + 40)) (colour l))
                           (horns_colour l))).
    { rewrite Hhc. destruct (Key.horns_color p) as [hc|] eqn:E; cbn.
      - by apply Hh.
      - apply tuple_map_gamut; [|exact Hl]. unfold channel_ok. lia. }
    each_element; done.
  - apply Forall_fmap, Forall_forall. intros i _. cbn.
    apply tuple_map_gamut; [|exact Hl]. unfold channel_ok. lia.
  - unfold crest_shapes. destruct (crest l); [|constructor].
    apply Forall_fmap, Forall_forall. intros i _. cbn.
    destruct unique; apply Hfix; lia.
  - unfold spot_shapes. destruct (spots l); [|constructor].
    apply Forall_fmap, Forall_forall. intros i _. cbn.
    apply tuple_map_gamut; [|exact Hl]. unfold channel_ok. lia.
  - unfold fin_shapes. destruct (fins l); [|constructor].
    apply Forall_fmap, Forall_forall. intros i _. cbn.
    apply tuple_map_gamut; [|exact Hl]. unfold channel_ok. lia.
  - each_element; cbn [fill_of]; apply Hfix; lia.
Qed.

Lemma filter_fmap_all {A} (f : shape → bool) (h : A → shape) (xs : list A) :
  (∀ x, f (h x) = true) → List.filter f (h <$> xs) = h <$> xs.
Proof.
  intros Hf. induction xs as [|x xs IH]; [reflexivity|].
  cbn. rewrite Hf. f_equal. exact IH.
Qed.

Lemma picture_petals (l : locals) (unique : bool) (g : Random.rng) :
  List.filter is_petal_sized (picture petal_offset l unique g)
  = crest_shapes petal_offset (crest l) unique.
Proof.
  unfold picture. rewrite !List.filter_app.
  assert (Ht : List.filter is_petal_sized
                 (tail_shapes (tail_shape l) (colour l)) = []).
  { unfold tail_shapes. repeat case_bool_decide; reflexivity. }
  assert (Hh : List.filter is_petal_sized
                 (horn_shapes (horns l) (horns_colour l) (colour l)) = []).
  { destruct (horns l); reflexivity. }
  assert (Hs : List.filter is_petal_sized
                 (spine_shapes (spines l) (colour l)) = []).
  { by apply filter_fmap_none. }
  assert (Hc : List.filter is_petal_sized
                 (crest_shapes petal_offset (crest l) unique)
               = crest_shapes petal_offset (crest l) unique).
  { unfold crest_shapes. destruct (crest l); [|reflexivity].
    apply filter_fmap_all. intros i. unfold petal, is_petal_sized.
    apply andb_true_intro. split; apply Z.eqb_eq; lia. }
  assert (Hp : List.filter is_petal_sized
                 (spot_shapes (spots l) (colour l) g) = []).
  { destruct (spots l); [|reflexivity]. apply filter_fmap_none.
    intros xy _. unfold spot, is_petal_sized.
    rewrite (proj2 (Z.eqb_neq _ _)) by lia. reflexivity. }
  assert (Hf : List.filter is_petal_sized (fin_shapes (fins l) (colour l)) = []).
  { destruct (fins l); reflexivity. }
  rewrite Ht, Hh, Hs, Hc, Hp, Hf. cbn. by rewrite app_nil_r.
Qed.

(** X4. The only ellipses of 8 by 8 in a rendered image are the petals
    of the collar: none without the crest flag that is in force, else six
    of them around (60, 40), in gold (255, 200, 0) for the base variant
    and magenta (255, 0, 200) for the unique one, whatever the body
    colour. *)
Theorem crest_petals (p : params) (unique : bool) (g g' : Random.rng)
    (im : image) :
  draw_creature petal_offset p unique g = Some (im, g') →
  ∃ l : locals,
    effective p unique = Some l
    ∧ List.filter is_petal_sized (drawn im) =
        (if crest l then
           (λ i, let '(dx, dy) := petal_offset i in
                 Ellipse (60 + dx - 4, 40 + dy - 4, 60 + dx + 4, 40 + dy + 4)
                         (if unique then (255, 0, 200) else (255, 200, 0)))
             <$> [0; 1; 2; 3; 4; 5]
         else []).
Proof.
  intros H. apply draw_creature_inv in H as (l & Heff & -> & _).
  exists l. split; [exact Heff|].
  cbn [drawn]. rewrite picture_petals.
  unfold crest_shapes. destruct (crest l); [|reflexivity].
  change (range 6) with [0; 1; 2; 3; 4; 5].
  apply list_fmap_ext. intros _ i _. unfold petal.
  by destruct (petal_offset i).
Qed.

(** X5. Painter's order: in every rendered image the first four shapes
    are the body, the head and the two legs in the body colour, and the
    last four are the eyes, the same for every creature and variant, so
    that no feature is ever painted over them. *)
Theorem body_first_eyes_last (p : params) (unique : bool) (g g' : Random.rng)
    (im : image) :
  draw_creature petal_offset p unique g = Some (im, g') →
  ∃ (c : rgb) (middle : list shape),
    colour <$> effective p unique = Some c
    ∧ drawn im =
        [Ellipse (20, 40, 80, 90) c; Ellipse (40, 20, 80, 60) c;
         Rectangle (30, 80, 40, 95) c; Rectangle (55, 80, 65, 95) c]
        ++ middle
        ++ [Ellipse (53, 28, 59, 34) (255, 255, 255);
            Ellipse (55, 30, 57, 32) (0, 0, 0);
            Ellipse (39, 28, 45, 34) (255, 255, 255);
            Ellipse (41, 30, 43, 32) (0, 0, 0)].
Proof.
  intros H. apply draw_creature_inv in H as (l & Heff & -> & _).
  exists (colour l),
    (tail_shapes (tail_shape l) (colour l)
     ++ horn_shapes (horns l) (horns_colour l) (colour l)
     ++ spine_shapes (spines l) (colour l)
     ++ crest_shapes petal_offset (crest l) unique
     ++ spot_shapes (spots l) (colour l) g
     ++ fin_shapes (fins l) (colour l)).
  rewrite Heff. split; [reflexivity|].
  cbn [drawn]. unfold picture, body_shapes, eye_shapes.
  by rewrite <- !app_assoc.
Qed.

Lemma tail_shapes_length (t : string) (c : rgb) :
  length (tail_shapes t c) =
  if bool_decide (t = "leaf"%string ∨ t = "fin"%string) then 2%nat else 1%nat.
Proof.
  unfold tail_shapes. repeat case_bool_decide; try reflexivity; naive_solver.
Qed.

(** X6. The number of drawing calls behind an image: eight for body,
    head, legs and eyes, one for the tail plus one for a leaf or fin vein,
    two for horns, one for each spine when the spine count is positive,
    six for the collar, six for the spots and three for the fins. *)
Theorem shape_count (p : params) (unique : bool) (g g' : Random.rng)
    (im : image) :
  draw_creature petal_offset p unique g = Some (im, g') →
  ∃ l : locals,
    effective p unique = Some l
    ∧ length (drawn im) =
        (8
         + (if bool_decide (tail_shape l = "leaf"%string
                            ∨ tail_shape l = "fin"%string) then 2 else 1)
         + (if horns l then 2 else 0)
         + Z.to_nat (spines l)
         + (if crest l then 6 else 0)
         + (if spots l then 6 else 0)
         + (if fins l then 3 else 0))%nat.
Proof.
  intros H. apply draw_creature_inv in H as (l & Heff & -> & _).
  exists l. split; [exact Heff|].
  cbn [drawn]. unfold picture. rewrite !length_app, tail_shapes_length.
  unfold spine_shapes. rewrite length_fmap, range_length.
  replace (length (horn_shapes (horns l) (horns_colour l) (colour l)))
    with (if horns l then 2 else 0)%nat by by destruct (horns l).
  replace (length (crest_shapes petal_offset (crest l) unique))
    with (if crest l then 6 else 0)%nat by by destruct (crest l).
  replace (length (spot_shapes (spots l) (colour l) g))
    with (if spots l then 6 else 0)%nat by by destruct (spots l).
  replace (length (fin_shapes (fins l) (colour l)))
    with (if fins l then 3 else 0)%nat by by destruct (fins l).
  cbn [length body_shapes eye_shapes]. lia.
Qed.

Lemma unique_spines_range (s : Z) :
  0 ≤ (s + 2) `mod` 5 ≤ 4 ∧ (s + 2) `mod` 5 ≠ s.
Proof.
  pose proof (Z.mod_pos_bound (s + 2) 5 eq_refl).
  pose proof (Z.div_mod (s + 2) 5 ltac:(done)). lia.
Qed.

(** X7. Whatever integer the spine count of the parameters is, negative
    or large, the unique variant works with a spine count between 0 and 4
    that differs from the given one, and its image has between 9 and 31
    shapes. *)
Theorem unique_spines_bounded (p : params) (g g' : Random.rng) (im : image) :
  draw_creature petal_offset p true g = Some (im, g') →
  ∃ lu : locals,
    effective p true = Some lu
    ∧ 0 ≤ spines lu ≤ 4
    ∧ spines lu ≠ default 0 (Key.spines p)
    ∧ (9 ≤ length (drawn im) ≤ 31)%nat.
Proof.
  intros H. apply draw_creature_inv in H as (lu & Heff & -> & _).
  exists lu. split; [exact Heff|].
  assert (Hs : spines lu = (default 0 (Key.spines p) + 2) `mod` 5).
  { unfold effective, make_unique in Heff.
    destruct (tuple_mapM _ _); [|discriminate]. cbn in Heff.
    by injection Heff as <-. }
  destruct (unique_spines_range (default 0 (Key.spines p))) as [Hr Hne].
  rewrite <- Hs in Hr, Hne.
  split; [exact Hr|]. split; [exact Hne|].
  cbn [drawn]. unfold picture. rewrite !length_app, tail_shapes_length.
  unfold spine_shapes. rewrite length_fmap, range_length.
  replace (length (horn_shapes (horns lu) (horns_colour lu) (colour lu)))
    with (if horns lu then 2 else 0)%nat by by destruct (horns lu).
  replace (length (crest_shapes petal_offset (crest lu) true))
    with (if crest lu then 6 else 0)%nat by by destruct (crest lu).
  replace (length (spot_shapes (spots lu) (colour lu) g))
    with (if spots lu then 6 else 0)%nat by by destruct (spots lu).
  replace (length (fin_shapes (fins lu) (colour lu)))
    with (if fins lu then 3 else 0)%nat by by destruct (fins lu).
  destruct (horns lu), (crest lu), (spots lu), (fins lu);
  case_bool_decide; cbn [length body_shapes eye_shapes]; lia.
Qed.

Lemma picture_left_horn (l : locals) (unique : bool) (g : Random.rng) :
  List.filter is_left_horn (picture petal_offset l unique g)
  = if horns l
    then [Polygon [(50, 12); (54, 25); (46, 25)]
                  (default (tuple_map (λ c, Z.min 255 (c + 40)) (colour l))
                           (horns_colour l))]
    else [].
Proof.
  unfold picture. rewrite !List.filter_app.
  assert (Ht : List.filter is_left_horn (tail_shapes (tail_shape l) (colour l)) = []).
  { unfold tail_shapes. repeat case_bool_decide; reflexivity. }
  assert (Hs : List.filter is_left_horn (spine_shapes (spines l) (colour l)) = []).
  { apply filter_fmap_none. intros i _. unfold spine, is_left_horn.
    apply bool_decide_eq_false_2. intros [= H1 H2]. lia. }
  assert (Hc : List.filter is_left_horn
                 (crest_shapes petal_offset (crest l) unique) = []).
  { destruct (crest l); [|reflexivity]. by apply filter_fmap_none. }
  assert (Hp : List.filter is_left_horn (spot_shapes (spots l) (colour l) g) = []).
  { destruct (spots l); [|reflexivity]. by apply filter_fmap_none. }
  assert (Hf : List.filter is_left_horn (fin_shapes (fins l) (colour l)) = []).
  { destruct (fins l); reflexivity. }
  rewrite Ht, Hs, Hc, Hp, Hf. destruct (horns l); reflexivity.
Qed.

(** X8. The two variants of one creature never coincide: whatever the
    parameters and the random numbers, the base image and the unique
    image differ (exactly one of them has the horns). *)
Theorem variants_differ (p : params) (g1 g1' g2 g2' : Random.rng)
    (base_img unique_img : image) :
  draw_creature petal_offset p false g1 = Some (base_img, g1') →
  draw_creature petal_offset p true g2 = Some (unique_img, g2') →
  base_img ≠ unique_img
  ∧ (length (List.filter is_left_horn (drawn base_img))
     + length (List.filter is_left_horn (drawn unique_img)) = 1)%nat.
Proof.
  intros Hb Hu.
  apply draw_creature_inv in Hb as (lb & Hlb & -> & _).
  apply draw_creature_inv in Hu as (lu & Hlu & -> & _).
  assert (Hh : horns lu = negb (horns lb)).
  { unfold effective, make_unique in Hlb, Hlu. injection Hlb as <-.
    destruct (tuple_mapM _ _); [|discriminate]. cbn in Hlu.
    by injection Hlu as <-. }
  assert (Hsum : (length (List.filter is_left_horn (picture petal_offset lb false g1))
    + length (List.filter is_left_horn (picture petal_offset lu true g2)) = 1)%nat).
  { rewrite !picture_left_horn, Hh. by destruct (horns lb). }
  split; [|exact Hsum].
  intros E. apply (f_equal drawn) in E. cbn [drawn] in E.
  rewrite E in Hsum. lia.
Qed.

Lemma range_bound (n i : Z) : i ∈ range n → 0 ≤ i < n.
Proof.
  unfold range. intros (k & -> & Hk%elem_of_seq)%list_elem_of_fmap. lia.
Qed.

(** X9. Every coordinate handed to Pillow is a pixel position of the
    100 by 100 image, provided the petal offsets are within 12 of the
    centre (as twelve times a cosine or sine is) and, for the base
    variant, the spine count is at most 6; the unique variant needs no
    condition on the spines. *)
Theorem shapes_on_canvas (p : params) (unique : bool) (g g' : Random.rng)
    (im : image) :
  (∀ i, 0 ≤ i < 6 →
        -12 ≤ (petal_offset i).1 ≤ 12 ∧ -12 ≤ (petal_offset i).2 ≤ 12) →
  (unique = false → default 0 (Key.spines p) ≤ 6) →
  draw_creature petal_offset p unique g = Some (im, g') →
  Forall (λ s, Forall on_canvas (points_of s)) (drawn im).
Proof.
  intros Hpo Hsp H. apply draw_creature_inv in H as (l & Heff & -> & _).
  assert (Hs : spines l ≤ 6).
  { unfold effective, make_unique in Heff. destruct unique.
    - destruct (tuple_mapM _ _); [|discriminate]. cbn in Heff.
      injection Heff as <-. cbn [spines].
      pose proof (unique_spines_range (default 0 (Key.spines p))). lia.
    - injection Heff as <-. by apply Hsp. }
  cbn [drawn]. unfold picture. repeat apply Forall_app_2.
  - each_element; each_element; unfold on_canvas; cbn; lia.
  - unfold tail_shapes. repeat case_bool_decide;
      each_element; each_element; unfold on_canvas; cbn; lia.
  - destruct (horns l); each_element; each_element; unfold on_canvas; cbn; lia.
  - apply Forall_fmap, Forall_forall. intros i Hi%range_bound.
    unfold spine. cbn [points_of compose]. each_element; unfold on_canvas; cbn; lia.
  - unfold crest_shapes. destruct (crest l); [|constructor].
    apply Forall_fmap, Forall_forall. intros i Hi%range_bound.
    destruct (Hpo i Hi) as [Hx Hy]. unfold petal. cbn [points_of compose].
    each_element; unfold on_canvas; cbn; lia.
  - unfold spot_shapes. destruct (spots l); [|constructor].
    apply Forall_fmap. eapply Forall_impl; [apply spot_positions_box|].
    intros [sx sy] [Hx Hy]. cbn in Hx, Hy. unfold spot. cbn [points_of fst snd].
    each_element; unfold on_canvas; cbn; lia.
  - destruct (fins l); each_element; each_element; unfold on_canvas; cbn; lia.
  - each_element; each_element; unfold on_canvas; cbn; lia.
Qed.

(** *** Further properties of the driver *)


(** What a turn of the loop that does not raise has done. *)
Lemma generate_entry_inv (name : string) (p : params) (w w1 : world) :
  generate_entry petal_offset BASE_DIR (name, p) w = Finished w1 →
  ∃ (lu : locals) (base_img unique_img : image),
    effective p true = Some lu
    ∧ base_img = Image "RGBA" (100, 100) (0, 0, 0, 0)
                   (picture petal_offset (extract p) false (entropy w))
    ∧ w1 = World (<[unique_path_of BASE_DIR name := unique_img]>
                    (<[base_path_of BASE_DIR name := base_img]> (files w)))
                 (stdout w ++ ["Generated " +:+ base_path_of BASE_DIR name
                               +:+ " and unique variant"])
                 (λ n, entropy w (12 + n)%nat).
Proof.
  unfold generate_entry. rewrite draw_creature_base, draw_creature_run.
  destruct (effective p true) as [lu|] eqn:Hlu; [|discriminate].
  cbn. intros [= <-]. eexists lu, _, _. split; [reflexivity|].
  split; [reflexivity|]. unfold save. f_equal.
  assert (Hs : spots lu = negb (spots (extract p))).
  { unfold effective, make_unique in Hlu.
    destruct (tuple_mapM _ _); [|discriminate]. cbn in Hlu.
    by injection Hlu as <-. }
  rewrite Hs. cbn [spots extract]. by destruct (default false (Key.spots p)).
Qed.

(** X10. A run of the loop that ends normally has taken exactly twelve
    numbers from the random generator for each entry, whatever the
    creature: of the two variants exactly one has spots. *)
Theorem driver_consumes_twelve (es : list (string * params)) (w w' : world) :
  generate_from petal_offset BASE_DIR es w = Finished w' →
  ∀ n : nat, entropy w' n = entropy w (12 * length es + n)%nat.
Proof.
  revert w. induction es as [|[name p] es IH]; intros w H n.
  - injection H as <-. reflexivity.
  - cbn [generate_from] in H.
    destruct (generate_entry petal_offset BASE_DIR (name, p) w) as [w1|w1] eqn:E;
      [|discriminate].
    apply generate_entry_inv in E as (lu & im1 & im2 & _ & _ & ->).
    rewrite (IH _ H n). cbn [entropy length]. f_equal. lia.
Qed.

(** X11. A run that ends normally has printed one line for each entry,
    in the order of the list: [Generated <base path> and unique variant]. *)
Theorem driver_log (es : list (string * params)) (w w' : world) :
  generate_from petal_offset BASE_DIR es w = Finished w' →
  stdout w' =
  stdout w ++ ((λ e : string * params,
                  "Generated " +:+ base_path_of BASE_DIR e.1
                  +:+ " and unique variant") <$> es).
Proof.
  revert w. induction es as [|[name p] es IH]; intros w H.
  - injection H as <-. cbn. by rewrite app_nil_r.
  - cbn [generate_from] in H.
    destruct (generate_entry petal_offset BASE_DIR (name, p) w) as [w1|w1] eqn:E;
      [|discriminate].
    apply generate_entry_inv in E as (lu & im1 & im2 & _ & _ & ->).
    rewrite (IH _ H). cbn [stdout fmap list_fmap fst]. by rewrite <- app_assoc.
Qed.


Lemma picture_no_spots (l : locals) (unique : bool) (g g' : Random.rng) :
  spots l = false →
  picture petal_offset l unique g = picture petal_offset l unique g'.
Proof. intros H. unfold picture. by rewrite H. Qed.

Lemma union_again (A B C P : gset string) : B = A ∪ P → C = B ∪ P → C = B.
Proof. set_solver. Qed.

Lemma finished_renders (es : list (string * params)) (w w' : world) :
  generate_from petal_offset BASE_DIR es w = Finished w' →
  Forall (λ e, is_Some (effective e.2 true)) es.
Proof.
  revert w. induction es as [|[name p] es IH]; intros w H; [constructor|].
  cbn [generate_from] in H.
  destruct (generate_entry petal_offset BASE_DIR (name, p) w) as [w1|w1] eqn:E;
    [|discriminate].
  apply generate_entry_inv in E as (lu & im1 & im2 & Hlu & _ & ->).
  constructor; [by exists lu | by eapply IH].
Qed.

(** X13. Running a catalogue a second time leaves the set of files as it
    is, and for every creature the picture of the variant without spots
    (the base one if the creature has no spots, else the unique one) is
    saved again unchanged: only pictures with spots can change. *)
Theorem rerun_same_files (es : list (string * params)) (w w1 w2 : world) :
  NoDup (es ≫= entry_paths BASE_DIR) →
  generate_from petal_offset BASE_DIR es w = Finished w1 →
  generate_from petal_offset BASE_DIR es w1 = Finished w2 →
  dom (files w2) = dom (files w1)
  ∧ ∀ name p, (name, p) ∈ es →
      if spots (extract p)
      then files w2 !! unique_path_of BASE_DIR name
           = files w1 !! unique_path_of BASE_DIR name
      else files w2 !! base_path_of BASE_DIR name
           = files w1 !! base_path_of BASE_DIR name.
Proof.
  intros Hnd H1 H2.
  pose proof (finished_renders es w w1 H1) as Hr.
  destruct (generate_from_ok petal_offset BASE_DIR es Hr w)
    as (w1' & Hr1 & Hd1 & _ & Hn1).
  destruct (generate_from_ok petal_offset BASE_DIR es Hr w1)
    as (w2' & Hr2 & Hd2 & _ & Hn2).
  rewrite H1 in Hr1. injection Hr1 as <-.
  rewrite H2 in Hr2. injection Hr2 as <-.
  split; [exact (union_again _ _ _ _ Hd1 Hd2)|].
  intros name p Hin.
  destruct (Hn1 Hnd name p Hin) as (a1 & a2 & a3 & i1 & i2 & Ha & Hb & Hc & Hd).
  destruct (Hn2 Hnd name p Hin) as (b1 & b2 & b3 & j1 & j2 & Ha' & Hb' & Hc' & Hd').
  rewrite draw_creature_base in Ha, Ha'.
  apply draw_creature_inv in Hb as (lu & Hlu & -> & _).
  apply draw_creature_inv in Hb' as (lu' & Hlu' & -> & _).
  rewrite Hlu in Hlu'. injection Hlu' as <-.
  assert (Hs : spots lu = negb (spots (extract p))).
  { unfold effective, make_unique in Hlu.
    destruct (tuple_mapM _ _); [|discriminate]. cbn in Hlu.
    by injection Hlu as <-. }
  destruct (spots (extract p)) eqn:Hsp.
  - rewrite Hd, Hd'. f_equal. f_equal. apply picture_no_spots. by rewrite Hs.
  - injection Ha as <- _. injection Ha' as <- _.
    rewrite Hc, Hc'. f_equal. f_equal. by apply picture_no_spots.
Qed.

Lemma string_app_nil (t : string) : EmptyString +:+ t = t.
Proof. reflexivity. Qed.

Lemma string_app_cons (a : ascii) (s t : string) :
  String a s +:+ t = String a (s +:+ t).
Proof. reflexivity. Qed.

Lemma string_length_app (s t : string) :
  String.length (s +:+ t) = (String.length s + String.length t)%nat.
Proof.
  induction s as [|a s IH]; [reflexivity|].
  rewrite string_app_cons. cbn [String.length]. by rewrite IH.
Qed.

Lemma string_app_inv_tail (s1 s2 t : string) : s1 +:+ t = s2 +:+ t → s1 = s2.
Proof.
  revert s2. induction s1 as [|a s1 IH]; intros [|b s2] H; [done|..].
  - apply (f_equal String.length) in H.
    rewrite string_app_nil, string_app_cons in H. cbn [String.length] in H.
    rewrite string_length_app in H. lia.
  - apply (f_equal String.length) in H.
    rewrite string_app_nil, string_app_cons in H. cbn [String.length] in H.
    rewrite string_length_app in H. lia.
  - rewrite !string_app_cons in H. injection H as -> H. f_equal. by apply IH.
Qed.

Lemma leaves_nodup (es : list (string * params)) :
  NoDup es.*1 → NoDup (es ≫= entry_leaves).
Proof.
  induction es as [|[name p] es IH]; [constructor|].
  rewrite fmap_cons, bind_cons. cbn [fst]. intros [Hn Hes]%NoDup_cons.
  unfold entry_leaves at 1. cbn [fst].
  assert (Hfree : ∀ x, x ∈ es ≫= entry_leaves →
            ∃ n, n ∈ es.*1 ∧ (x = "base/" +:+ n +:+ "_base.png"
                              ∨ x = "unique/" +:+ n +:+ "_unique.png")).
  { intros x (e & Hx & He)%list_elem_of_bind. exists e.1.
    split; [by apply list_elem_of_fmap_2|].
    unfold entry_leaves in Hx. set_solver. }
  cbn [app]. apply NoDup_cons. split.
  { intros [E|(n & Hin & [E|E])%Hfree]%elem_of_cons.
    - rewrite !string_app_cons in E. discriminate.
    - apply (inj _), string_app_inv_tail in E. by subst.
    - rewrite !string_app_cons in E. discriminate. }
  apply NoDup_cons. split; [|by apply IH].
  intros (n & Hin & [E|E])%Hfree.
  - rewrite !string_app_cons in E. discriminate.
  - apply (inj _), string_app_inv_tail in E. by subst.
Qed.

(** X14. For any catalogue, not only the one of the script: creatures
    with distinct names, none of which makes [os.path.join] restart from
    the root, never share a file; the paths written are pairwise
    distinct. *)
Theorem distinct_names_distinct_files (es : list (string * params)) :
  Forall plain_name es →
  NoDup es.*1 →
  NoDup (es ≫= entry_paths BASE_DIR).
Proof.
  intros Hp Hn. rewrite paths_leaves by done.
  apply (NoDup_fmap_2 _). by apply leaves_nodup.
Qed.


End Further.

(* ===================================================================== *)
(** ** The further properties at work                                     *)
(* ===================================================================== *)

Lemma unique_channel_brightens_witness :
  0 ≤ 200 ≤ 255
  ∧ ∃ v : Z, unique_channel 200 = Some v ∧ 80 ≤ v ≤ 255 ∧ 200 ≤ v
             ∧ (v = 200 ↔ 200 = 255).
Proof.
  assert (H : 0 ≤ 200 ≤ 255) by lia.
  split; [exact H | exact (unique_channel_brightens 200 H)].
Defined.

Lemma gamut_intro (r g b : Z) :
  0 ≤ r ≤ 255 → 0 ≤ g ≤ 255 → 0 ≤ b ≤ 255 → gamut (r, g, b).
Proof. intros. repeat split; cbn; lia. Qed.


(** [verdant_barkhorn], which brings its own horn colour. *)
Lemma fills_in_gamut_witness :
  let p := {| Key.color := Some (143, 92, 49); Key.tail := Some "normal"%string;
              Key.horns := Some true; Key.horns_color := Some (189, 135, 70);
              Key.spines := Some 0; Key.crest := Some false;
              Key.spots := Some false; Key.fins := Some false;
              Key.allow_crest_unique := None |} in
  ∃ (im : image) (g' : Random.rng),
    draw_creature exact_petal_offset p false zero_rng = Some (im, g')
    ∧ Forall (λ s, gamut (fill_of s)) (drawn im).
Proof.
  intros p.
  assert (H : ∃ r, draw_creature exact_petal_offset p false zero_rng = Some r).
  { rewrite draw_creature_run. eexists. vm_compute. reflexivity. }
  destruct H as [[im g'] H]. exists im, g'. split; [exact H|].
  apply (fills_in_gamut exact_petal_offset p false zero_rng g' im).
  - apply gamut_intro; lia.
  - intros hc [= <-]. apply gamut_intro; lia.
  - exact H.
Defined.

(** [verdant_suncollar], base variant: six golden petals. *)
Lemma crest_petals_witness :
  let p := {| Key.color := Some (208, 131, 45); Key.tail := Some "normal"%string;
              Key.horns := Some false; Key.horns_color := None;
              Key.spines := Some 0; Key.crest := Some true;
              Key.spots := Some false; Key.fins := Some false;
              Key.allow_crest_unique := Some false |} in
  ∃ (im : image) (g' : Random.rng),
    draw_creature exact_petal_offset p false zero_rng = Some (im, g')
    ∧ List.filter is_petal_sized (drawn im) =
        [Ellipse (68, 36, 76, 44) (255, 200, 0);
         Ellipse (62, 46, 70, 54) (255, 200, 0);
         Ellipse (50, 46, 58, 54) (255, 200, 0);
         Ellipse (44, 36, 52, 44) (255, 200, 0);
         Ellipse (50, 26, 58, 34) (255, 200, 0);
         Ellipse (62, 26, 70, 34) (255, 200, 0)].
Proof.
  intros p.
  assert (H : ∃ r, draw_creature exact_petal_offset p false zero_rng = Some r).
  { rewrite draw_creature_run. eexists. vm_compute. reflexivity. }
  destruct H as [[im g'] H]. exists im, g'. split; [exact H|].
  destruct (crest_petals exact_petal_offset p false zero_rng g' im H)
    as (l & Hl & Hf).
  rewrite Hf. vm_compute in Hl. injection Hl as <-. reflexivity.
Defined.

Lemma body_first_eyes_last_witness :
  let p := {| Key.color := Some (75, 123, 199); Key.tail := Some "fin"%string;
              Key.horns := Some false; Key.horns_color := None;
              Key.spines := Some 0; Key.crest := Some false;
              Key.spots := Some true; Key.fins := Some true;
              Key.allow_crest_unique := None |} in
  ∃ (im : image) (g' : Random.rng),
    draw_creature exact_petal_offset p false zero_rng = Some (im, g')
    ∧ ∃ (c : rgb) (middle : list shape),
        colour <$> effective p false = Some c
        ∧ drawn im =
            [Ellipse (20, 40, 80, 90) c; Ellipse (40, 20, 80, 60) c;
             Rectangle (30, 80, 40, 95) c; Rectangle (55, 80, 65, 95) c]
            ++ middle
            ++ [Ellipse (53, 28, 59, 34) (255, 255, 255);
                Ellipse (55, 30, 57, 32) (0, 0, 0);
                Ellipse (39, 28, 45, 34) (255, 255, 255);
                Ellipse (41, 30, 43, 32) (0, 0, 0)].
Proof.
  intros p.
  assert (H : ∃ r, draw_creature exact_petal_offset p false zero_rng = Some r).
  { rewrite draw_creature_run. eexists. vm_compute. reflexivity. }
  destruct H as [[im g'] H]. exists im, g'. split; [exact H|].
  exact (body_first_eyes_last exact_petal_offset p false zero_rng g' im H).
Defined.

(** [verdant_moonfen], base variant: 8 + 2 + 0 + 0 + 0 + 6 + 3 shapes. *)
Lemma shape_count_witness :
  let p := {| Key.color := Some (75, 123, 199); Key.tail := Some "fin"%string;
              Key.horns := Some false; Key.horns_color := None;
              Key.spines := Some 0; Key.crest := Some false;
              Key.spots := Some true; Key.fins := Some true;
              Key.allow_crest_unique := None |} in
  ∃ (im : image) (g' : Random.rng),
    draw_creature exact_petal_offset p false zero_rng = Some (im, g')
    ∧ length (drawn im) = 19%nat.
Proof.
  intros p.
  assert (H : ∃ r, draw_creature exact_petal_offset p false zero_rng = Some r).
  { rewrite draw_creature_run. eexists. vm_compute. reflexivity. }
  destruct H as [[im g'] H]. exists im, g'. split; [exact H|].
  destruct (shape_count exact_petal_offset p false zero_rng g' im H)
    as (l & Hl & Hn).
  rewrite Hn. vm_compute in Hl. injection Hl as <-. reflexivity.
Defined.

(** A negative spine count: the unique variant has four spines. *)
Lemma unique_spines_bounded_witness :
  let p := {| Key.color := Some (60, 60, 70); Key.tail := Some "long"%string;
              Key.horns := Some false; Key.horns_color := None;
              Key.spines := Some (-3); Key.crest := Some false;
              Key.spots := Some false; Key.fins := Some false;
              Key.allow_crest_unique := None |} in
  ∃ (im : image) (g' : Random.rng),
    draw_creature exact_petal_offset p true zero_rng = Some (im, g')
    ∧ ∃ lu : locals,
        effective p true = Some lu
        ∧ 0 ≤ spines lu ≤ 4
        ∧ spines lu ≠ default 0 (Key.spines p)
        ∧ (9 ≤ length (drawn im) ≤ 31)%nat.
Proof.
  intros p.
  assert (H : ∃ r, draw_creature exact_petal_offset p true zero_rng = Some r).
  { rewrite draw_creature_run. eexists. vm_compute. reflexivity. }
  destruct H as [[im g'] H]. exists im, g'. split; [exact H|].
  exact (unique_spines_bounded exact_petal_offset p zero_rng g' im H).
Defined.

Lemma variants_differ_witness :
  let p := {| Key.color := Some (76, 174, 79); Key.tail := Some "leaf"%string;
              Key.horns := Some false; Key.horns_color := None;
              Key.spines := Some 1; Key.crest := Some false;
              Key.spots := Some false; Key.fins := Some false;
              Key.allow_crest_unique := None |} in
  ∃ (base_img unique_img : image) (g1' g2' : Random.rng),
    draw_creature exact_petal_offset p false zero_rng = Some (base_img, g1')
    ∧ draw_creature exact_petal_offset p true zero_rng = Some (unique_img, g2')
    ∧ base_img ≠ unique_img
    ∧ (length (List.filter is_left_horn (drawn base_img))
       + length (List.filter is_left_horn (drawn unique_img)) = 1)%nat.
Proof.
  intros p.
  assert (Hb : ∃ r, draw_creature exact_petal_offset p false zero_rng = Some r).
  { rewrite draw_creature_run. eexists. vm_compute. reflexivity. }
  assert (Hu : ∃ r, draw_creature exact_petal_offset p true zero_rng = Some r).
  { rewrite draw_creature_run. eexists. vm_compute. reflexivity. }
  destruct Hb as [[bi g1'] Hb]. destruct Hu as [[ui g2'] Hu].
  exists bi, ui, g1', g2'. split; [exact Hb|]. split; [exact Hu|].
  exact (variants_differ exact_petal_offset p zero_rng g1' zero_rng g2' bi ui Hb Hu).
Defined.

Lemma exact_petal_offset_bound (i : Z) :
  0 ≤ i < 6 →
  -12 ≤ (exact_petal_offset i).1 ≤ 12 ∧ -12 ≤ (exact_petal_offset i).2 ≤ 12.
Proof.
  intros _. unfold exact_petal_offset.
  repeat (destruct (_ =? _)); cbn; lia.
Qed.

(** [desert_sandshiver], four spines, base variant. *)
Lemma shapes_on_canvas_witness :
  let p := {| Key.color := Some (155, 121, 93); Key.tail := Some "long"%string;
              Key.horns := Some false; Key.horns_color := None;
              Key.spines := Some 4; Key.crest := Some false;
              Key.spots := Some false; Key.fins := Some false;
              Key.allow_crest_unique := None |} in
  ∃ (im : image) (g' : Random.rng),
    draw_creature exact_petal_offset p false zero_rng = Some (im, g')
    ∧ Forall (λ s, Forall on_canvas (points_of s)) (drawn im).
Proof.
  intros p.
  assert (H : ∃ r, draw_creature exact_petal_offset p false zero_rng = Some r).
  { rewrite draw_creature_run. eexists. vm_compute. reflexivity. }
  destruct H as [[im g'] H]. exists im, g'. split; [exact H|].
  apply (shapes_on_canvas exact_petal_offset p false zero_rng g' im).
  - exact exact_petal_offset_bound.
  - intros _. cbn. lia.
  - exact H.
Defined.

Lemma two_entries_render :
  Forall (λ e, is_Some (effective e.2 true)) two_entries.
Proof. repeat constructor; eexists; vm_compute; reflexivity. Qed.

Lemma driver_consumes_twelve_witness :
  ∃ w' : world,
    generate_from exact_petal_offset "/srv/game" two_entries blank_world
    = Finished w'
    ∧ ∀ n : nat, entropy w' n = entropy blank_world (12 * 2 + n)%nat.
Proof.
  destruct (generate_from_ok exact_petal_offset "/srv/game" two_entries
              two_entries_render blank_world) as (w' & H & _).
  exists w'. split; [exact H|].
  exact (driver_consumes_twelve exact_petal_offset "/srv/game" two_entries
           blank_world w' H).
Defined.

Lemma driver_log_witness :
  ∃ w' : world,
    generate_from exact_petal_offset "/srv/game" two_entries blank_world
    = Finished w'
    ∧ stdout w' =
        ["Generated /srv/game/assets/creatures/base/verdant_dewhopper_base.png and unique variant";
         "Generated /srv/game/assets/creatures/base/verdant_leaflon_base.png and unique variant"]%string.
Proof.
  destruct (generate_from_ok exact_petal_offset "/srv/game" two_entries
              two_entries_render blank_world) as (w' & H & _).
  exists w'. split; [exact H|].
  rewrite (driver_log exact_petal_offset "/srv/game" two_entries
             blank_world w' H).
  reflexivity.
Defined.


Lemma two_entries_plain : Forall plain_name two_entries.
Proof. repeat constructor. Qed.

Lemma two_entries_names : NoDup two_entries.*1.
Proof. apply (bool_decide_unpack _). vm_compute. exact I. Qed.

Lemma two_entries_paths : NoDup (two_entries ≫= entry_paths "/srv/game").
Proof.
  rewrite paths_leaves by apply two_entries_plain.
  apply (NoDup_fmap_2 _). apply (bool_decide_unpack _). vm_compute. exact I.
Qed.

Lemma rerun_same_files_witness :
  ∃ w1 w2 : world,
    NoDup (two_entries ≫= entry_paths "/srv/game")
    ∧ generate_from exact_petal_offset "/srv/game" two_entries blank_world
      = Finished w1
    ∧ generate_from exact_petal_offset "/srv/game" two_entries w1 = Finished w2
    ∧ dom (files w2) = dom (files w1)
    ∧ ∀ name p, (name, p) ∈ two_entries →
        if spots (extract p)
        then files w2 !! unique_path_of "/srv/game" name
             = files w1 !! unique_path_of "/srv/game" name
        else files w2 !! base_path_of "/srv/game" name
             = files w1 !! base_path_of "/srv/game" name.
Proof.
  destruct (generate_from_ok exact_petal_offset "/srv/game" two_entries
              two_entries_render blank_world) as (w1 & H1 & _).
  destruct (generate_from_ok exact_petal_offset "/srv/game" two_entries
              two_entries_render w1) as (w2 & H2 & _).
  exists w1, w2. split; [exact two_entries_paths|].
  split; [exact H1|]. split; [exact H2|].
  exact (rerun_same_files exact_petal_offset "/srv/game" two_entries
           blank_world w1 w2 two_entries_paths H1 H2).
Defined.

Lemma distinct_names_distinct_files_witness :
  Forall plain_name two_entries
  ∧ NoDup two_entries.*1
  ∧ NoDup (two_entries ≫= entry_paths "/srv/game").
Proof.
  split; [exact two_entries_plain|]. split; [exact two_entries_names|].
  exact (distinct_names_distinct_files "/srv/game" two_entries
           two_entries_plain two_entries_names).
Defined.


